(** * Vocala: the spaced-repetition core

    A shallow embedding of
      - [app/db/models/user_word_progress.py]   (class [UserWordProgress]),
      - [app/db/repositories/base.py] and
        [app/db/repositories/user_word_progress.py],
      - [app/services/srs_service.py]            (class [SRSService]),
    and the properties of the scheduling engine, the progress store and the
    daily session planner.

    Modelling conventions.
      - A Python [int] is a [Z].
      - A Python [float] is an exact rational ([Q]); [int(x)] truncates
        towards zero, [min] and [max] pick their argument as Python does.
      - A [datetime] is a [Z], a count of microseconds; a [timedelta] is a
        difference of such counts.  Every [datetime.utcnow()] in
        [record_review] is a clock reading of its own.  The range limits of
        [datetime], of [float] and of the integer columns are not modelled.
      - A status is the string the column holds.
      - The table is the list of its rows, in insertion order; the session
        is threaded through the repository calls by a state and error
        monad. *)

From Stdlib Require Import ZArith QArith Qround Qminmax List String Bool Lia Lqa
  Permutation Sorted.
Import ListNotations.

Local Open Scope Z_scope.

(** ** Python values *)

Module Py.

Definition datetime := Z.
Definition timedelta_us := Z.

(** [timedelta(days=d, hours=h)], in microseconds. *)
Definition timedelta (days hours : Z) : timedelta_us :=
  days * 86400000000 + hours * 3600000000.

(** [min(a, b)] on floats: [b] when [b < a], else [a]. *)
Definition min (a b : Q) : Q :=
  if Qlt_le_dec b a then b else a.

(** [max(a, b)] on floats: [b] when [b > a], else [a]. *)
Definition max (a b : Q) : Q :=
  if Qlt_le_dec a b then b else a.

(** [int(x)] of a float: truncation towards zero. *)
Definition int (x : Q) : Z :=
  if Qlt_le_dec x 0 then Qceiling x else Qfloor x.

(** Truth value of an [Optional[float]]: [None] and [0.0] are false. *)
Definition truthy_float (x : option Q) : bool :=
  match x with
  | None => false
  | Some q => negb (Qeq_bool q 0)
  end.

(** Truth value of an optional object that is always true when present
    (a [datetime], an ORM instance). *)
Definition truthy {A : Type} (x : option A) : bool :=
  match x with
  | None => false
  | Some _ => true
  end.

Definition Qleb (a b : Q) : bool := if Qlt_le_dec b a then false else true.
Definition Qltb (a b : Q) : bool := if Qlt_le_dec a b then true else false.

End Py.

(** ** The model class [UserWordProgress] *)

Record UserWordProgress : Type := mkProgress {
  id : Z;
  user_id : Z;
  word_id : Z;
  status : string;
  srs_level : Z;
  srs_interval : Z;
  ease_factor : Q;
  total_reviews : Z;
  correct_reviews : Z;
  consecutive_correct : Z;
  consecutive_incorrect : Z;
  accuracy_rate : option Q;
  average_response_time : option Q;
  difficulty_rating : option Z;
  first_seen_at : Py.datetime;
  first_correct_at : option Py.datetime;
  mastered_at : option Py.datetime;
  next_review_at : Py.datetime;
  last_reviewed_at : option Py.datetime;
  is_favorite : bool;
  is_flagged : bool;
  notes : option string
}.

(** Field updates, one per assigned attribute. *)
Definition set_status (v : string) (r : UserWordProgress) :=
  mkProgress (id r) (user_id r) (word_id r) v (srs_level r) (srs_interval r)
    (ease_factor r) (total_reviews r) (correct_reviews r)
    (consecutive_correct r) (consecutive_incorrect r) (accuracy_rate r)
    (average_response_time r) (difficulty_rating r) (first_seen_at r)
    (first_correct_at r) (mastered_at r) (next_review_at r)
    (last_reviewed_at r) (is_favorite r) (is_flagged r) (notes r).

Definition set_srs_level (v : Z) (r : UserWordProgress) :=
  mkProgress (id r) (user_id r) (word_id r) (status r) v (srs_interval r)
    (ease_factor r) (total_reviews r) (correct_reviews r)
    (consecutive_correct r) (consecutive_incorrect r) (accuracy_rate r)
    (average_response_time r) (difficulty_rating r) (first_seen_at r)
    (first_correct_at r) (mastered_at r) (next_review_at r)
    (last_reviewed_at r) (is_favorite r) (is_flagged r) (notes r).

Definition set_srs_interval (v : Z) (r : UserWordProgress) :=
  mkProgress (id r) (user_id r) (word_id r) (status r) (srs_level r) v
    (ease_factor r) (total_reviews r) (correct_reviews r)
    (consecutive_correct r) (consecutive_incorrect r) (accuracy_rate r)
    (average_response_time r) (difficulty_rating r) (first_seen_at r)
    (first_correct_at r) (mastered_at r) (next_review_at r)
    (last_reviewed_at r) (is_favorite r) (is_flagged r) (notes r).

Definition set_ease_factor (v : Q) (r : UserWordProgress) :=
  mkProgress (id r) (user_id r) (word_id r) (status r) (srs_level r)
    (srs_interval r) v (total_reviews r) (correct_reviews r)
    (consecutive_correct r) (consecutive_incorrect r) (accuracy_rate r)
    (average_response_time r) (difficulty_rating r) (first_seen_at r)
    (first_correct_at r) (mastered_at r) (next_review_at r)
    (last_reviewed_at r) (is_favorite r) (is_flagged r) (notes r).

Definition set_total_reviews (v : Z) (r : UserWordProgress) :=
  mkProgress (id r) (user_id r) (word_id r) (status r) (srs_level r)
    (srs_interval r) (ease_factor r) v (correct_reviews r)
    (consecutive_correct r) (consecutive_incorrect r) (accuracy_rate r)
    (average_response_time r) (difficulty_rating r) (first_seen_at r)
    (first_correct_at r) (mastered_at r) (next_review_at r)
    (last_reviewed_at r) (is_favorite r) (is_flagged r) (notes r).

Definition set_correct_reviews (v : Z) (r : UserWordProgress) :=
  mkProgress (id r) (user_id r) (word_id r) (status r) (srs_level r)
    (srs_interval r) (ease_factor r) (total_reviews r) v
    (consecutive_correct r) (consecutive_incorrect r) (accuracy_rate r)
    (average_response_time r) (difficulty_rating r) (first_seen_at r)
    (first_correct_at r) (mastered_at r) (next_review_at r)
    (last_reviewed_at r) (is_favorite r) (is_flagged r) (notes r).

Definition set_consecutive_correct (v : Z) (r : UserWordProgress) :=
  mkProgress (id r) (user_id r) (word_id r) (status r) (srs_level r)
    (srs_interval r) (ease_factor r) (total_reviews r) (correct_reviews r)
    v (consecutive_incorrect r) (accuracy_rate r)
    (average_response_time r) (difficulty_rating r) (first_seen_at r)
    (first_correct_at r) (mastered_at r) (next_review_at r)
    (last_reviewed_at r) (is_favorite r) (is_flagged r) (notes r).

Definition set_consecutive_incorrect (v : Z) (r : UserWordProgress) :=
  mkProgress (id r) (user_id r) (word_id r) (status r) (srs_level r)
    (srs_interval r) (ease_factor r) (total_reviews r) (correct_reviews r)
    (consecutive_correct r) v (accuracy_rate r)
    (average_response_time r) (difficulty_rating r) (first_seen_at r)
    (first_correct_at r) (mastered_at r) (next_review_at r)
    (last_reviewed_at r) (is_favorite r) (is_flagged r) (notes r).

Definition set_accuracy_rate (v : option Q) (r : UserWordProgress) :=
  mkProgress (id r) (user_id r) (word_id r) (status r) (srs_level r)
    (srs_interval r) (ease_factor r) (total_reviews r) (correct_reviews r)
    (consecutive_correct r) (consecutive_incorrect r) v
    (average_response_time r) (difficulty_rating r) (first_seen_at r)
    (first_correct_at r) (mastered_at r) (next_review_at r)
    (last_reviewed_at r) (is_favorite r) (is_flagged r) (notes r).

Definition set_average_response_time (v : option Q) (r : UserWordProgress) :=
  mkProgress (id r) (user_id r) (word_id r) (status r) (srs_level r)
    (srs_interval r) (ease_factor r) (total_reviews r) (correct_reviews r)
    (consecutive_correct r) (consecutive_incorrect r) (accuracy_rate r)
    v (difficulty_rating r) (first_seen_at r)
    (first_correct_at r) (mastered_at r) (next_review_at r)
    (last_reviewed_at r) (is_favorite r) (is_flagged r) (notes r).

Definition set_difficulty_rating (v : option Z) (r : UserWordProgress) :=
  mkProgress (id r) (user_id r) (word_id r) (status r) (srs_level r)
    (srs_interval r) (ease_factor r) (total_reviews r) (correct_reviews r)
    (consecutive_correct r) (consecutive_incorrect r) (accuracy_rate r)
    (average_response_time r) v (first_seen_at r)
    (first_correct_at r) (mastered_at r) (next_review_at r)
    (last_reviewed_at r) (is_favorite r) (is_flagged r) (notes r).

Definition set_first_correct_at (v : option Py.datetime) (r : UserWordProgress) :=
  mkProgress (id r) (user_id r) (word_id r) (status r) (srs_level r)
    (srs_interval r) (ease_factor r) (total_reviews r) (correct_reviews r)
    (consecutive_correct r) (consecutive_incorrect r) (accuracy_rate r)
    (average_response_time r) (difficulty_rating r) (first_seen_at r)
    v (mastered_at r) (next_review_at r)
    (last_reviewed_at r) (is_favorite r) (is_flagged r) (notes r).

Definition set_mastered_at (v : option Py.datetime) (r : UserWordProgress) :=
  mkProgress (id r) (user_id r) (word_id r) (status r) (srs_level r)
    (srs_interval r) (ease_factor r) (total_reviews r) (correct_reviews r)
    (consecutive_correct r) (consecutive_incorrect r) (accuracy_rate r)
    (average_response_time r) (difficulty_rating r) (first_seen_at r)
    (first_correct_at r) v (next_review_at r)
    (last_reviewed_at r) (is_favorite r) (is_flagged r) (notes r).

Definition set_next_review_at (v : Py.datetime) (r : UserWordProgress) :=
  mkProgress (id r) (user_id r) (word_id r) (status r) (srs_level r)
    (srs_interval r) (ease_factor r) (total_reviews r) (correct_reviews r)
    (consecutive_correct r) (consecutive_incorrect r) (accuracy_rate r)
    (average_response_time r) (difficulty_rating r) (first_seen_at r)
    (first_correct_at r) (mastered_at r) v
    (last_reviewed_at r) (is_favorite r) (is_flagged r) (notes r).

Definition set_last_reviewed_at (v : option Py.datetime) (r : UserWordProgress) :=
  mkProgress (id r) (user_id r) (word_id r) (status r) (srs_level r)
    (srs_interval r) (ease_factor r) (total_reviews r) (correct_reviews r)
    (consecutive_correct r) (consecutive_incorrect r) (accuracy_rate r)
    (average_response_time r) (difficulty_rating r) (first_seen_at r)
    (first_correct_at r) (mastered_at r) (next_review_at r)
    v (is_favorite r) (is_flagged r) (notes r).

(** The clock readings of one [record_review] call, one per
    [datetime.utcnow()] in the method and its helpers. *)
Record Clock : Type := mkClock {
  at_review : Py.datetime;         (* last_reviewed_at = utcnow()   *)
  at_first_correct : Py.datetime;  (* first_correct_at = utcnow()   *)
  at_mastered : Py.datetime;       (* mastered_at = utcnow()        *)
  at_schedule : Py.datetime        (* next_review_at = utcnow() + _ *)
}.

(** [calculate_accuracy_rate]: the record after the call (the returned float
    is discarded by the only caller). *)
Definition calculate_accuracy_rate (r : UserWordProgress) : UserWordProgress :=
  if total_reviews r =? 0 then r
  else set_accuracy_rate
         (Some (inject_Z (correct_reviews r) / inject_Z (total_reviews r))%Q) r.

(** [_update_srs_success] *)
Definition _update_srs_success (r : UserWordProgress) : UserWordProgress :=
  let r1 :=
    if srs_level r =? 0 then set_srs_interval 1 (set_srs_level 1 r)
    else if srs_level r =? 1 then set_srs_interval 6 (set_srs_level 2 r)
    else
      let r' := set_srs_level (srs_level r + 1) r in
      set_srs_interval
        (Py.int (inject_Z (srs_interval r') * ease_factor r')%Q) r' in
  if 2 <=? consecutive_correct r1
  then set_ease_factor (Py.min (ease_factor r1 + (1 # 10))%Q (3 # 1)%Q) r1
  else r1.

(** [_update_srs_failure] *)
Definition _update_srs_failure (r : UserWordProgress) : UserWordProgress :=
  let r1 := set_srs_interval 1 (set_srs_level (Z.max 0 (srs_level r - 1)) r) in
  if 2 <=? consecutive_incorrect r1
  then set_ease_factor (Py.max (ease_factor r1 - (2 # 10))%Q (13 # 10)%Q) r1
  else r1.

(** The three guards of [_update_status], as the [if]/[elif] chain writes
    them. *)
Definition mastery_guard (r : UserWordProgress) : bool :=
  Py.truthy_float (accuracy_rate r)
  && match accuracy_rate r with
     | Some a => Py.Qleb (9 # 10) a
     | None => false
     end
  && (5 <=? srs_level r)
  && (3 <=? consecutive_correct r).

Definition demotion_guard (r : UserWordProgress) : bool :=
  String.eqb (status r) "mastered" && (2 <=? consecutive_incorrect r).

Definition failed_guard (r : UserWordProgress) : bool :=
  (5 <=? total_reviews r)
  && Py.truthy_float (accuracy_rate r)
  && match accuracy_rate r with
     | Some a => Py.Qltb a (3 # 10)
     | None => false
     end
  && (3 <=? consecutive_incorrect r).

(** [_update_status] *)
Definition _update_status (now : Py.datetime) (r : UserWordProgress)
  : UserWordProgress :=
  let r1 :=
    if String.eqb (status r) "new" && (0 <? total_reviews r)
    then set_status "learning" r else r in
  if mastery_guard r1 then
    let r2 := set_status "mastered" r1 in
    if negb (Py.truthy (mastered_at r2)) then set_mastered_at (Some now) r2
    else r2
  else if demotion_guard r1 then set_status "review" r1
  else if failed_guard r1 then set_status "failed" r1
  else r1.

(** [_schedule_next_review] *)
Definition _schedule_next_review (now : Py.datetime) (r : UserWordProgress)
  : UserWordProgress :=
  if String.eqb (status r) "mastered" then
    set_next_review_at (now + Py.timedelta (srs_interval r * 2) 0) r
  else if String.eqb (status r) "failed" then
    set_next_review_at (now + Py.timedelta 0 4) r
  else
    set_next_review_at (now + Py.timedelta (srs_interval r) 0) r.

(** [record_review] *)
Definition record_review (is_correct : bool) (response_time : option Q)
    (difficulty : option Z) (clk : Clock) (r : UserWordProgress)
  : UserWordProgress :=
  let r := set_total_reviews (total_reviews r + 1) r in
  let r := set_last_reviewed_at (Some (at_review clk)) r in
  let r :=
    if is_correct then
      let r := set_correct_reviews (correct_reviews r + 1) r in
      let r := set_consecutive_correct (consecutive_correct r + 1) r in
      let r := set_consecutive_incorrect 0 r in
      let r :=
        if negb (Py.truthy (first_correct_at r))
        then set_first_correct_at (Some (at_first_correct clk)) r else r in
      _update_srs_success r
    else
      let r := set_consecutive_incorrect (consecutive_incorrect r + 1) r in
      let r := set_consecutive_correct 0 r in
      _update_srs_failure r in
  let r := calculate_accuracy_rate r in
  let r :=
    match response_time with
    | Some t =>
        match average_response_time r with
        | None => set_average_response_time (Some t) r
        | Some avg =>
            set_average_response_time
              (Some ((8 # 10) * avg + (2 # 10) * t)%Q) r
        end
    | None => r
    end in
  let r :=
    match difficulty with
    | Some d => set_difficulty_rating (Some d) r
    | None => r
    end in
  let r := _update_status (at_mastered clk) r in
  _schedule_next_review (at_schedule clk) r.

(** [is_due_for_review] *)
Definition is_due_for_review (now : Py.datetime) (r : UserWordProgress) : bool :=
  next_review_at r <=? now.

(** The [CheckConstraint]s of [__table_args__]; a check on a NULL column
    passes. *)
Definition check_constraints (r : UserWordProgress) : bool :=
  (0 <=? srs_level r)
  && (1 <=? srs_interval r)
  && Py.Qleb 1 (ease_factor r)
  && match accuracy_rate r with
     | Some a => Py.Qleb 0 a && Py.Qleb a 1
     | None => true
     end
  && match difficulty_rating r with
     | Some d => (1 <=? d) && (d <=? 5)
     | None => true
     end.

(** ** The collaborating models, as far as the planner reads them *)

Module User.
Record t : Type := mk {
  id : Z;
  daily_word_count : Z;
  difficulty_level : string
}.
End User.

Module Word.
Record t : Type := mk {
  id : Z;
  english_word : string
}.
End Word.

(** ** The session: a state and error monad over the progress table *)

Inductive exn : Type :=
| MultipleResultsFound   (* scalar_one_or_none() met several rows      *)
| IntegrityError.        (* a unique index or a CHECK refused the write *)

Inductive result (A : Type) : Type :=
| Ok (a : A)
| Raise (e : exn).
Arguments Ok {A} a.
Arguments Raise {A} e.

Definition Table := list UserWordProgress.

Definition DB (A : Type) : Type := Table -> result (A * Table).

Definition ret {A : Type} (a : A) : DB A := fun t => Ok (a, t).

Definition bind {A B : Type} (m : DB A) (k : A -> DB B) : DB B :=
  fun t =>
    match m t with
    | Ok (a, t') => k a t'
    | Raise e => Raise e
    end.

Definition raise {A : Type} (e : exn) : DB A := fun _ => Raise e.

Declare Scope db_scope.
Delimit Scope db_scope with db.
Notation "x <- m ;; k" := (bind m (fun x => k))
  (at level 61, m at next level, right associativity) : db_scope.
Local Open Scope db_scope.

(** ** [BaseRepository] and [UserWordProgressRepository] *)

Definition same_key (uid wid : Z) (r : UserWordProgress) : bool :=
  (user_id r =? uid) && (word_id r =? wid).

(** The next value of the autoincrement primary key. *)
Definition next_id (t : Table) : Z :=
  1 + fold_right (fun r m => Z.max (id r) m) 0 t.

(** The instance [UserWordProgress(user_id=.., word_id=..)] after the INSERT
    and the refresh: the column defaults, the two server-side timestamps. *)
Definition new_progress (pk uid wid : Z) (now : Py.datetime) : UserWordProgress :=
  mkProgress pk uid wid "new" 0 1 (25 # 10)%Q 0 0 0 0 None None None
    now None None now None false false None.

(** [idx_user_word_unique] *)
Definition unique_index_free (uid wid : Z) (t : Table) : bool :=
  negb (existsb (same_key uid wid) t).

(** [BaseRepository.create], for this model: add, commit, refresh. *)
Definition create (now : Py.datetime) (uid wid : Z) : DB UserWordProgress :=
  fun t =>
    let instance := new_progress (next_id t) uid wid now in
    if unique_index_free uid wid t && check_constraints instance
    then Ok (instance, t ++ [instance])
    else Raise IntegrityError.

(** [get_by_user_and_word]: [scalar_one_or_none()] of the selection. *)
Definition get_by_user_and_word (uid wid : Z) : DB (option UserWordProgress) :=
  fun t =>
    match filter (same_key uid wid) t with
    | [] => Ok (None, t)
    | [r] => Ok (Some r, t)
    | _ :: _ :: _ => Raise MultipleResultsFound
    end.

(** [get_by_filter(user_id=uid)] *)
Definition get_by_filter_user_id (uid : Z) : DB (list UserWordProgress) :=
  fun t => Ok (filter (fun r => user_id r =? uid) t, t).

(** [ORDER BY next_review_at]: a stable insertion sort. *)
Fixpoint insert_by_next_review (r : UserWordProgress) (l : list UserWordProgress)
  : list UserWordProgress :=
  match l with
  | [] => [r]
  | x :: l' =>
      if next_review_at r <? next_review_at x then r :: x :: l'
      else x :: insert_by_next_review r l'
  end.

Definition order_by_next_review (l : list UserWordProgress)
  : list UserWordProgress :=
  fold_right insert_by_next_review [] l.

(** [get_words_due_for_review] *)
Definition get_words_due_for_review (now : Py.datetime) (uid : Z)
  : DB (list UserWordProgress) :=
  fun t =>
    Ok (order_by_next_review
          (filter (fun r => (user_id r =? uid) && (next_review_at r <=? now)) t),
        t).

(** [create_or_get_progress] *)
Definition create_or_get_progress (now : Py.datetime) (uid wid : Z)
  : DB UserWordProgress :=
  progress <- get_by_user_and_word uid wid ;;
  if negb (Py.truthy progress) then create now uid wid
  else match progress with
       | Some p => ret p
       | None => create now uid wid
       end.


(** ** [SRSService] *)

(** The result dictionary of the planner. *)
Inductive value : Type :=
| VProgress (l : list UserWordProgress)
| VWords (l : list Word.t)
| VInt (n : Z).

Definition dict := list (string * value).

Definition len (v : option value) : Z :=
  match v with
  | Some (VProgress l) => Z.of_nat (List.length l)
  | Some (VWords l) => Z.of_nat (List.length l)
  | _ => 0
  end.

Fixpoint dict_get (k : string) (d : dict) : option value :=
  match d with
  | [] => None
  | (k', v) :: d' => if String.eqb k k' then Some v else dict_get k d'
  end.

(** [d[k] = v]: the key keeps its place, a new key goes last. *)
Fixpoint dict_set (k : string) (v : value) (d : dict) : dict :=
  match d with
  | [] => [(k, v)]
  | (k', v') :: d' =>
      if String.eqb k k' then (k, v) :: d' else (k', v') :: dict_set k v d'
  end.

Definition keys (d : dict) : list string := map fst d.

Section Service.

(** [WordManagementService.get_or_generate_words(user, word_count,
    exclude_word_ids)]: the word supply.  It reads the word cache and the
    text generator, neither of which is part of the progress table, so it
    is a parameter of the planner. *)
Variable get_or_generate_words : User.t -> Z -> list Z -> list Word.t.

(** [assign_words_to_user] *)
Fixpoint assign_words_to_user (now : Py.datetime) (user : User.t)
    (words : list Word.t) : DB (list UserWordProgress) :=
  match words with
  | [] => ret []
  | word :: rest =>
      progress <- create_or_get_progress now (User.id user) (Word.id word) ;;
      progress_list <- assign_words_to_user now user rest ;;
      ret (progress :: progress_list)
  end.


(** [_get_user_learned_word_ids] *)
Definition _get_user_learned_word_ids (uid : Z) : DB (list Z) :=
  all_progress <- get_by_filter_user_id uid ;;
  ret (map word_id all_progress).

Definition empty_result : dict :=
  [("review_words", VProgress []); ("new_words", VWords []);
   ("total_count", VInt 0)]%string.

(** [get_daily_learning_words]; [now] is the clock of the due query,
    [created] the one of the inserts. *)
Definition get_daily_learning_words (now created : Py.datetime)
    (user : User.t) (include_reviews include_new : bool) : DB dict :=
  let result := empty_result in
  result <-
    (if include_reviews then
       review_progress <- get_words_due_for_review now (User.id user) ;;
       ret (dict_set "review_words" (VProgress review_progress) result)
     else ret result) ;;
  result <-
    (if include_new then
       let review_count := len (dict_get "review_words" result) in
       let remaining_slots :=
         Z.max 0 (User.daily_word_count user - review_count) in
       if 0 <? remaining_slots then
         learned_word_ids <- _get_user_learned_word_ids (User.id user) ;;
         let new_words :=
           get_or_generate_words user remaining_slots learned_word_ids in
         _ <- (match new_words with
               | [] => ret []
               | _ :: _ => assign_words_to_user created user new_words
               end) ;;
         ret (dict_set "new_words" (VWords new_words) result)
       else ret result
     else ret result) ;;
  ret (dict_set "total_count"
         (VInt (len (dict_get "review_words" result)
                + len (dict_get "new_words" result))) result).

End Service.

(** ** Auxiliary definitions for the statements *)

(** The two halves of the body of [record_review] that precede the status
    update: the counters with the SRS update (lines 136 to 155), and the
    performance metrics (lines 157 to 168). *)
Definition count_outcome (is_correct : bool) (clk : Clock)
    (r : UserWordProgress) : UserWordProgress :=
  let r := set_total_reviews (total_reviews r + 1) r in
  let r := set_last_reviewed_at (Some (at_review clk)) r in
  if is_correct then
    let r := set_correct_reviews (correct_reviews r + 1) r in
    let r := set_consecutive_correct (consecutive_correct r + 1) r in
    let r := set_consecutive_incorrect 0 r in
    let r :=
      if negb (Py.truthy (first_correct_at r))
      then set_first_correct_at (Some (at_first_correct clk)) r else r in
    _update_srs_success r
  else
    let r := set_consecutive_incorrect (consecutive_incorrect r + 1) r in
    let r := set_consecutive_correct 0 r in
    _update_srs_failure r.

Definition update_metrics (response_time : option Q) (difficulty : option Z)
    (r : UserWordProgress) : UserWordProgress :=
  let r := calculate_accuracy_rate r in
  let r :=
    match response_time with
    | Some t =>
        match average_response_time r with
        | None => set_average_response_time (Some t) r
        | Some avg =>
            set_average_response_time
              (Some ((8 # 10) * avg + (2 # 10) * t)%Q) r
        end
    | None => r
    end in
  match difficulty with
  | Some d => set_difficulty_rating (Some d) r
  | None => r
  end.

(** The record as [_update_status] finds it inside [record_review]. *)
Definition before_status (is_correct : bool) (response_time : option Q)
    (difficulty : option Z) (clk : Clock) (r : UserWordProgress)
  : UserWordProgress :=
  update_metrics response_time difficulty (count_outcome is_correct clk r).

(** One review event, and a run of them. *)
Record Review : Type := mkReview {
  is_correct : bool;
  response_time : option Q;
  difficulty : option Z;
  clock : Clock
}.

Definition review (r : UserWordProgress) (ev : Review) : UserWordProgress :=
  record_review (is_correct ev) (response_time ev) (difficulty ev) (clock ev) r.

Definition reviews (evs : list Review) (r : UserWordProgress)
  : UserWordProgress :=
  fold_left review evs r.

Definition hour : Z := 3600000000.

(** The mastery, demotion and failure conditions, in the words of the
    status rules. *)
Definition mastery_rule (r : UserWordProgress) : Prop :=
  exists a, accuracy_rate r = Some a /\ ((9 # 10) <= a)%Q
            /\ 5 <= srs_level r /\ 3 <= consecutive_correct r.

Definition demotion_rule (r : UserWordProgress) : Prop :=
  status r = "mastered"%string /\ 2 <= consecutive_incorrect r.

Definition failed_rule (r : UserWordProgress) : Prop :=
  exists a, accuracy_rate r = Some a /\ (a < (3 # 10))%Q
            /\ 5 <= total_reviews r /\ 3 <= consecutive_incorrect r.

(** The fields the SRS update and the counters decide. *)
Definition srs_fields (r : UserWordProgress) :=
  (srs_level r, srs_interval r, ease_factor r,
   (total_reviews r, correct_reviews r,
    consecutive_correct r, consecutive_incorrect r)).

(** Case analysis on every test of a goal. *)
Ltac split_ifs :=
  repeat match goal with
         | |- context [if ?b then _ else _] => destruct b
         | |- context [match ?x with Some _ => _ | None => _ end] => destruct x
         end.

(** Concrete clock readings and review events for the scenarios. *)
Definition clk0 : Clock := mkClock 1000 1001 1002 1003.


(** Scenario E of the specification: accuracy 0.95, level 5, three correct
    answers in a row, not yet mastered. *)
Definition scenario_e : UserWordProgress :=
  mkProgress 1 1 1 "learning" 5 112 (29 # 10)%Q 20 19 3 0 (Some (95 # 100)%Q)
    None None 0 (Some 0) None 0 (Some 0) false false None.

Definition incorrect : Review := mkReview false None None clk0.
Definition correct : Review := mkReview true None None clk0.

(** A record as [create] makes it. *)
Definition fresh : UserWordProgress := new_progress 1 1 1 0.

(** What every [record_review] call preserves. *)
Definition srs_invariant (r : UserWordProgress) : Prop :=
  0 <= srs_level r
  /\ 1 <= srs_interval r
  /\ ((13 # 10) <= ease_factor r <= 3)%Q
  /\ 0 <= total_reviews r
  /\ (0 < total_reviews r ->
      accuracy_rate r =
      Some (inject_Z (correct_reviews r) / inject_Z (total_reviews r))%Q).

(** The statuses a [failed] record moves among. *)
Definition past_learning (r : UserWordProgress) : Prop :=
  status r = "failed"%string \/ status r = "mastered"%string
  \/ status r = "review"%string.

(** A run that fails a fresh record, and a run that brings it back: rounds
    of eleven correct answers and one incorrect keep the interval small
    while the accuracy climbs to 0.9. *)
Definition failing_prefix : list Review :=
  [correct; incorrect; incorrect; incorrect; incorrect].

Definition round : list Review := repeat correct 11 ++ [incorrect].

Definition recovery : list Review :=
  List.concat (repeat round 13) ++ repeat correct 11 ++ [incorrect; incorrect].

(** The columns of [idx_user_word_unique]. *)
Definition key (r : UserWordProgress) : Z * Z := (user_id r, word_id r).

(** [idx_user_word_unique] holds of the table. *)
Definition unique_keys (t : Table) : Prop := NoDup (map key t).


(** A series of [create_or_get_progress] calls. *)
Fixpoint create_or_get_all (calls : list (Py.datetime * Z * Z))
  : DB (list UserWordProgress) :=
  match calls with
  | [] => ret []
  | (now, uid, wid) :: rest =>
      p <- create_or_get_progress now uid wid ;;
      ps <- create_or_get_all rest ;;
      ret (p :: ps)
  end.

(** The columns no method assigns. *)
Definition identity (r : UserWordProgress) : Z * Z * Z :=
  (id r, user_id r, word_id r).

(** The UPDATE by primary key that the commit issues for [p']. *)
Definition updated (p' : UserWordProgress) (t : Table) : Table :=
  map (fun x => if id x =? id p' then p' else x) t.

(** The rows the due query selects, and the word ids the planner excludes. *)
Definition due_rows (now : Py.datetime) (uid : Z) (t : Table)
  : list UserWordProgress :=
  filter (fun r => (user_id r =? uid) && (next_review_at r <=? now)) t.

Definition learned_ids (uid : Z) (t : Table) : list Z :=
  map word_id (filter (fun r => user_id r =? uid) t).

Definition remaining_slots (user : User.t) (n_due : nat) : Z :=
  Z.max 0 (User.daily_word_count user - Z.of_nat n_due).

(** A field of the result other than the three the planner fills: what a
    flag for a partial assignment would have to be. *)
Definition signals_partial_assignment (d : dict) : Prop :=
  exists k v, In (k, v) d
              /\ k <> "review_words"%string /\ k <> "new_words"%string
              /\ k <> "total_count"%string.

(** Scenario F of the specification: a quota of 5, two due rows (and a third
    row that is not due), a supply that answers with one word. *)
Definition learner : User.t := User.mk 1 5 "B1_B2".

Definition scenario_f : Table :=
  [set_next_review_at 50 (new_progress 1 1 1 0);
   set_next_review_at 40 (new_progress 2 1 2 0);
   set_next_review_at 900 (new_progress 3 1 3 0)].

Definition one_word (_ : User.t) (_ : Z) (_ : list Z) : list Word.t :=
  [Word.mk 10 "abide"].

(** ** Further methods of the model, the repositories and the service *)


Definition set_is_favorite (v : bool) (r : UserWordProgress) :=
  mkProgress (id r) (user_id r) (word_id r) (status r) (srs_level r)
    (srs_interval r) (ease_factor r) (total_reviews r) (correct_reviews r)
    (consecutive_correct r) (consecutive_incorrect r) (accuracy_rate r)
    (average_response_time r) (difficulty_rating r) (first_seen_at r)
    (first_correct_at r) (mastered_at r) (next_review_at r)
    (last_reviewed_at r) v (is_flagged r) (notes r).

Definition set_is_flagged (v : bool) (r : UserWordProgress) :=
  mkProgress (id r) (user_id r) (word_id r) (status r) (srs_level r)
    (srs_interval r) (ease_factor r) (total_reviews r) (correct_reviews r)
    (consecutive_correct r) (consecutive_incorrect r) (accuracy_rate r)
    (average_response_time r) (difficulty_rating r) (first_seen_at r)
    (first_correct_at r) (mastered_at r) (next_review_at r)
    (last_reviewed_at r) (is_favorite r) v (notes r).

(** The keyword arguments that the service passes to [update_by_id]: one
    column and its new value each. *)
Inductive assignment : Type :=
| Set_status (v : string)
| Set_srs_level (v : Z)
| Set_srs_interval (v : Z)
| Set_ease_factor (v : Q)
| Set_consecutive_correct (v : Z)
| Set_consecutive_incorrect (v : Z)
| Set_next_review_at (v : Py.datetime)
| Set_is_flagged (v : bool)
| Set_is_favorite (v : bool).

Definition assign (r : UserWordProgress) (a : assignment) : UserWordProgress :=
  match a with
  | Set_status v => set_status v r
  | Set_srs_level v => set_srs_level v r
  | Set_srs_interval v => set_srs_interval v r
  | Set_ease_factor v => set_ease_factor v r
  | Set_consecutive_correct v => set_consecutive_correct v r
  | Set_consecutive_incorrect v => set_consecutive_incorrect v r
  | Set_next_review_at v => set_next_review_at v r
  | Set_is_flagged v => set_is_flagged v r
  | Set_is_favorite v => set_is_favorite v r
  end.

(** The [SET] clause that [.values] builds from the keyword arguments, on
    one row. *)
Definition values (kwargs : list assignment) (r : UserWordProgress)
  : UserWordProgress :=
  fold_left assign kwargs r.

(** [BaseRepository.get_by_id] *)
Definition get_by_id (pk : Z) : DB (option UserWordProgress) :=
  fun t =>
    match filter (fun r => id r =? pk) t with
    | [] => Ok (None, t)
    | [r] => Ok (Some r, t)
    | _ :: _ :: _ => Raise MultipleResultsFound
    end.

(** [BaseRepository.update_by_id]: the UPDATE of the rows with that primary
    key, refused when a CHECK fails on an updated row, then the commit and
    [get_by_id]. *)
Definition update_by_id (pk : Z) (kwargs : list assignment)
  : DB (option UserWordProgress) :=
  fun t =>
    if forallb (fun r => negb (id r =? pk) || check_constraints (values kwargs r)) t
    then get_by_id pk (map (fun r => if id r =? pk then values kwargs r else r) t)
    else Raise IntegrityError.

(** [BaseRepository.delete_by_id]: [rowcount > 0]. *)
Definition delete_by_id (pk : Z) : DB bool :=
  fun t =>
    let t' := filter (fun r => negb (id r =? pk)) t in
    let rowcount := Z.of_nat (List.length t) - Z.of_nat (List.length t') in
    Ok (0 <? rowcount, t').

(** [get_user_progress_by_status] *)
Definition get_user_progress_by_status (uid : Z) (st : string)
  : DB (list UserWordProgress) :=
  fun t =>
    Ok (order_by_next_review
          (filter (fun r => (user_id r =? uid) && String.eqb (status r) st) t),
        t).

(** [SRSService.flag_difficult_word] *)
Definition flag_difficult_word (uid wid : Z) (flagged : bool)
  : DB (option UserWordProgress) :=
  progress <- get_by_user_and_word uid wid ;;
  match progress with
  | Some p => update_by_id (id p) [Set_is_flagged flagged]
  | None => ret None
  end.

(** [SRSService.mark_word_as_favorite] *)
Definition mark_word_as_favorite (uid wid : Z) (favorite : bool)
  : DB (option UserWordProgress) :=
  progress <- get_by_user_and_word uid wid ;;
  match progress with
  | Some p => update_by_id (id p) [Set_is_favorite favorite]
  | None => ret None
  end.

(** The keyword arguments of the reset. *)
Definition reset_values (now : Py.datetime) : list assignment :=
  [Set_status "new"; Set_srs_level 0; Set_srs_interval 1;
   Set_ease_factor (25 # 10)%Q; Set_consecutive_correct 0;
   Set_consecutive_incorrect 0; Set_next_review_at now].

(** [SRSService.reset_word_progress] *)
Definition reset_word_progress (now : Py.datetime) (uid wid : Z)
  : DB (option UserWordProgress) :=
  progress <- get_by_user_and_word uid wid ;;
  match progress with
  | Some p => update_by_id (id p) (reset_values now)
  | None => ret None
  end.

(** [status_counts.get(status, 0)] and [status_counts[status] = n]. *)
Fixpoint counts_get (k : string) (d : list (string * Z)) : Z :=
  match d with
  | [] => 0
  | (k', n) :: d' => if String.eqb k k' then n else counts_get k d'
  end.

Fixpoint counts_set (k : string) (n : Z) (d : list (string * Z))
  : list (string * Z) :=
  match d with
  | [] => [(k, n)]
  | (k', n') :: d' =>
      if String.eqb k k' then (k, n) :: d' else (k', n') :: counts_set k n d'
  end.

(** The dictionary that [get_user_learning_statistics] returns, a field per
    key. *)
Module Statistics.
Record t : Type := mk {
  total_words : Z;
  status_breakdown : list (string * Z);
  total_reviews : Z;
  total_correct : Z;
  overall_accuracy : Q;
  words_due_for_review : Z;
  new_words : Z;
  learning_words : Z;
  mastered_words : Z;
  failed_words : Z
}.
End Statistics.

(** The loop of [get_user_learning_statistics]: the status counts and the
    two totals. *)
Definition tally (acc : list (string * Z) * Z * Z) (progress : UserWordProgress)
  : list (string * Z) * Z * Z :=
  let '(status_counts, reviews_so_far, correct_so_far) := acc in
  (counts_set (status progress) (counts_get (status progress) status_counts + 1)
     status_counts,
   reviews_so_far + total_reviews progress,
   correct_so_far + correct_reviews progress).

(** [SRSService.get_user_learning_statistics] *)
Definition get_user_learning_statistics (now : Py.datetime) (uid : Z)
  : DB Statistics.t :=
  all_progress <- get_by_filter_user_id uid ;;
  let '(status_counts, reviews_sum, correct_sum) :=
    fold_left tally all_progress ([], 0, 0) in
  let overall :=
    if 0 <? reviews_sum then (inject_Z correct_sum / inject_Z reviews_sum)%Q
    else 0%Q in
  due <- get_words_due_for_review now uid ;;
  ret (Statistics.mk (Z.of_nat (List.length all_progress)) status_counts
         reviews_sum correct_sum overall (Z.of_nat (List.length due))
         (counts_get "new" status_counts) (counts_get "learning" status_counts)
         (counts_get "mastered" status_counts)
         (counts_get "failed" status_counts)).

(** [_should_send_daily_words] of the daily task, on the one attribute of
    the user that it reads. *)
Definition _should_send_daily_words (now : Py.datetime)
    (last_daily_words_sent : option Py.datetime) : bool :=
  match last_daily_words_sent with
  | None => true
  | Some sent =>
      let time_diff := now - sent in
      Py.Qltb (inject_Z (20 * 3600)) (inject_Z time_diff / inject_Z 1000000)%Q
  end.

(** The primary key is unique in the table. *)
Definition unique_ids (t : Table) : Prop := NoDup (map id t).

(** The five statuses of the column. *)
Definition known_status (s : string) : Prop :=
  s = "new"%string \/ s = "learning"%string \/ s = "review"%string
  \/ s = "mastered"%string \/ s = "failed"%string.

(** The fields that only [record_review] and the reset write. *)
Definition srs_core (r : UserWordProgress) : Z * Z * Q * Z * Z :=
  (srs_level r, srs_interval r, ease_factor r,
   consecutive_correct r, consecutive_incorrect r).

(** The rows of a user, and the sums of their review counters. *)
Definition rows_of (uid : Z) (t : Table) : list UserWordProgress :=
  filter (fun r => user_id r =? uid) t.

Definition sum_total_reviews (l : list UserWordProgress) : Z :=
  fold_right (fun r a => total_reviews r + a) 0 l.

Definition sum_correct_reviews (l : list UserWordProgress) : Z :=
  fold_right (fun r a => correct_reviews r + a) 0 l.

(** The length of the run of answers of one kind that a list of reviews
    starts with, the run it ends with, and the number of correct answers. *)
Fixpoint leading_run (b : bool) (evs : list Review) : Z :=
  match evs with
  | [] => 0
  | ev :: rest =>
      if Bool.eqb (is_correct ev) b then 1 + leading_run b rest else 0
  end.

Definition trailing_run (b : bool) (evs : list Review) : Z :=
  leading_run b (rev evs).

Definition correct_answers (evs : list Review) : Z :=
  Z.of_nat (List.length (filter is_correct evs)).

(** The order of [ORDER BY next_review_at]. *)
Definition earlier_review (a b : UserWordProgress) : Prop :=
  next_review_at a <= next_review_at b.

(** A row as [create] inserts it for a user at a time. *)
Definition created_for (uid : Z) (now : Py.datetime) (r : UserWordProgress)
  : Prop :=
  exists pk wid, r = new_progress pk uid wid now.

(** The (user, word) pairs of a list of words. *)
Definition word_keys (user : User.t) (words : list Word.t) : list (Z * Z) :=
  map (fun w => (User.id user, Word.id w)) words.

(** The number of rows of a list with a status. *)
Definition status_count (st : string) (l : list UserWordProgress) : Z :=
  Z.of_nat (List.length (filter (fun r => String.eqb (status r) st) l)).

(** ** The word cache: [Word], [WordRepository] and
    [WordManagementService.get_or_generate_words]

    A [Word] object is a reference to its row: a list of words is the list
    of their primary keys, and the rows are read in the table.  Of the
    columns, the ones that the queries and [increment_usage] read or write
    are kept, [last_used_at] apart.  An exception carries the table as it
    was when it was raised, since every commit before it has taken
    effect. *)
Module WordCache.

Record row : Type := mk {
  id : Z;
  english_word : string;
  difficulty_level : string;
  is_verified : bool;
  usage_count : Z
}.

Definition table := list row.

Inductive exn : Type :=
| MultipleResultsFound   (* scalar_one_or_none() met several rows *)
| DBAPIError             (* the server refused the statement      *)
| GenerationError.       (* raised while generating or caching    *)

Inductive result (A : Type) : Type :=
| Ok (a : A) (t : table)
| Raise (e : exn) (t : table).
Arguments Ok {A} a t.
Arguments Raise {A} e t.

Definition DB (A : Type) : Type := table -> result A.

Definition ret {A : Type} (a : A) : DB A := fun t => Ok a t.

Definition bind {A B : Type} (m : DB A) (k : A -> DB B) : DB B :=
  fun t =>
    match m t with
    | Ok a t' => k a t'
    | Raise e t' => Raise e t'
    end.

(** [try: body except Exception: handler] *)
Definition try_except {A : Type} (body : DB A) (handler : DB A) : DB A :=
  fun t =>
    match body t with
    | Ok a t' => Ok a t'
    | Raise _ t' => handler t'
    end.

(** [Word.increment_usage] *)
Definition increment_usage (w : row) : row :=
  mk (id w) (english_word w) (difficulty_level w) (is_verified w)
    (usage_count w + 1).

(** [BaseRepository.get_by_id] on the words. *)
Definition get_by_id (pk : Z) : DB (option row) :=
  fun t =>
    match filter (fun w => id w =? pk) t with
    | [] => Ok None t
    | [w] => Ok (Some w) t
    | _ :: _ :: _ => Raise MultipleResultsFound t
    end.

(** [WordRepository.increment_word_usage] *)
Definition increment_word_usage (pk : Z) : DB unit :=
  bind (get_by_id pk) (fun word =>
    match word with
    | Some _ =>
        fun t =>
          Ok tt (map (fun w => if id w =? pk then increment_usage w else w) t)
    | None => ret tt
    end).

(** [ORDER BY usage_count ASC]: a stable insertion sort. *)
Fixpoint insert_by_usage (w : row) (l : list row) : list row :=
  match l with
  | [] => [w]
  | x :: l' =>
      if usage_count w <? usage_count x then w :: x :: l'
      else x :: insert_by_usage w l'
  end.

Definition order_by_usage (l : list row) : list row :=
  fold_right insert_by_usage [] l.

(** The rows that the query selects, before the order and the limit. *)
Definition eligible (difficulty : string) (exclude_word_ids : list Z)
    (t : table) : list row :=
  let selected :=
    filter (fun w => String.eqb (difficulty_level w) difficulty
                     && Bool.eqb (is_verified w) true) t in
  match exclude_word_ids with
  | [] => selected
  | _ :: _ =>
      filter (fun w => negb (existsb (Z.eqb (id w)) exclude_word_ids)) selected
  end.

(** [WordRepository.get_verified_words_by_difficulty]; the server refuses a
    negative [LIMIT]. *)
Definition get_verified_words_by_difficulty (difficulty : string) (limit : Z)
    (exclude_word_ids : list Z) : DB (list Z) :=
  fun t =>
    if limit <? 0 then Raise DBAPIError t
    else Ok (map id (firstn (Z.to_nat limit)
                       (order_by_usage (eligible difficulty exclude_word_ids t))))
            t.

(** [l[:n]] *)
Definition prefix {A : Type} (n : Z) (l : list A) : list A :=
  if 0 <=? n then firstn (Z.to_nat n) l
  else firstn (List.length l - Z.to_nat (- n)) l.

(** [for word in words: await increment_word_usage(word.id)] *)
Fixpoint mark_used (words : list Z) : DB unit :=
  match words with
  | [] => ret tt
  | pk :: rest => bind (increment_word_usage pk) (fun _ => mark_used rest)
  end.

Section Service.

(** [_generate_and_cache_words]: the text generator and the caching of what
    it returns. *)
Variable _generate_and_cache_words : User.t -> Z -> DB (list Z).

(** [get_or_generate_words] *)
Definition get_or_generate_words (user : User.t) (word_count : Z)
    (exclude_word_ids : option (list Z)) : DB (list Z) :=
  let exclude_word_ids :=
    match exclude_word_ids with None => [] | Some l => l end in
  bind (get_verified_words_by_difficulty (User.difficulty_level user)
          word_count exclude_word_ids)
    (fun cached_words =>
       if word_count <=? Z.of_nat (List.length cached_words) then
         bind (mark_used (prefix word_count cached_words))
           (fun _ => ret (prefix word_count cached_words))
       else
         let needed_count := word_count - Z.of_nat (List.length cached_words) in
         try_except
           (bind (_generate_and_cache_words user needed_count)
              (fun new_words =>
                 let all_words := cached_words ++ new_words in
                 bind (mark_used all_words)
                   (fun _ => ret (prefix word_count all_words))))
           (ret cached_words)).

End Service.

End WordCache.

(** The primary key is unique among the words; the order of
    [ORDER BY usage_count]; the table after the words of a list have been
    marked as used. *)
Definition unique_word_ids (t : WordCache.table) : Prop :=
  NoDup (map WordCache.id t).

Definition less_used (a b : WordCache.row) : Prop :=
  WordCache.usage_count a <= WordCache.usage_count b.

Definition used (words : list Z) (t : WordCache.table) : WordCache.table :=
  map (fun w => if existsb (Z.eqb (WordCache.id w)) words
                then WordCache.increment_usage w else w) t.

(** What the optional argument of [get_or_generate_words] stands for. *)
Definition excluded (exclude_word_ids : option (list Z)) : list Z :=
  match exclude_word_ids with None => [] | Some l => l end.

(** A small table of words, and a generator that fails. *)
Definition lexicon : WordCache.table :=
  [WordCache.mk 1 "abide" "B1_B2" true 2;
   WordCache.mk 2 "brisk" "B1_B2" true 0;
   WordCache.mk 3 "candid" "B1_B2" false 0;
   WordCache.mk 4 "dwell" "B1_B2" true 1;
   WordCache.mk 5 "eerie" "C1" true 0].

Definition no_generator (_ : User.t) (_ : Z) : WordCache.DB (list Z) :=
  fun t => WordCache.Raise WordCache.GenerationError t.



(** ** Python arithmetic *)

Lemma Qleb_true (a b : Q) : Py.Qleb a b = true <-> (a <= b)%Q.
Proof.
  unfold Py.Qleb. destruct (Qlt_le_dec b a) as [H | H]; split; intro K;
    try easy. exfalso. apply (Qlt_not_le _ _ H K).
Qed.

Lemma Qleb_false (a b : Q) : Py.Qleb a b = false <-> (b < a)%Q.
Proof.
  unfold Py.Qleb. destruct (Qlt_le_dec b a) as [H | H]; split; intro K;
    try easy. exfalso. apply (Qlt_not_le _ _ K H).
Qed.

Lemma Qltb_true (a b : Q) : Py.Qltb a b = true <-> (a < b)%Q.
Proof.
  unfold Py.Qltb. destruct (Qlt_le_dec a b) as [H | H]; split; intro K;
    try easy. exfalso. apply (Qlt_not_le _ _ K H).
Qed.



Lemma py_int_floor (x : Q) : (0 <= x)%Q -> Py.int x = Qfloor x.
Proof.
  intro H. unfold Py.int. destruct (Qlt_le_dec x 0) as [K | K]; [| reflexivity].
  exfalso. apply (Qlt_not_le _ _ K H).
Qed.

Lemma py_min_bounds (lo a b : Q) :
  (lo <= a)%Q -> (lo <= b)%Q -> (lo <= Py.min a b <= b)%Q.
Proof.
  intros Ha Hb. unfold Py.min. destruct (Qlt_le_dec b a); split;
    auto using Qle_refl.
Qed.

Lemma py_max_bounds (hi a b : Q) :
  (a <= hi)%Q -> (b <= hi)%Q -> (b <= Py.max a b <= hi)%Q.
Proof.
  intros Ha Hb. unfold Py.max. destruct (Qlt_le_dec a b); split;
    auto using Qle_refl.
Qed.

Lemma py_int_ge_1 (n : Z) (e : Q) : 1 <= n -> (1 <= e)%Q ->
  1 <= Py.int (inject_Z n * e).
Proof.
  intros Hn He.
  assert (H1 : (1 <= inject_Z n * e)%Q).
  { assert (Hn' : (1 <= inject_Z n)%Q).
    { change 1%Q with (inject_Z 1). rewrite <- Zle_Qle. exact Hn. }
    nra. }
  rewrite py_int_floor by lra.
  change 1 with (Qfloor 1). apply Qfloor_resp_le, H1.
Qed.

(** ** The stages of [record_review] *)

Lemma record_review_stages (c : bool) (rt : option Q) (d : option Z)
    (clk : Clock) (r : UserWordProgress) :
  record_review c rt d clk r =
  _schedule_next_review (at_schedule clk)
    (_update_status (at_mastered clk) (before_status c rt d clk r)).
Proof. reflexivity. Qed.

Lemma schedule_frame (now : Py.datetime) (r : UserWordProgress) :
  srs_fields (_schedule_next_review now r) = srs_fields r
  /\ status (_schedule_next_review now r) = status r
  /\ accuracy_rate (_schedule_next_review now r) = accuracy_rate r
  /\ mastered_at (_schedule_next_review now r) = mastered_at r
  /\ difficulty_rating (_schedule_next_review now r) = difficulty_rating r.
Proof. unfold _schedule_next_review. split_ifs; repeat split. Qed.

Lemma update_status_frame (now : Py.datetime) (r : UserWordProgress) :
  srs_fields (_update_status now r) = srs_fields r
  /\ accuracy_rate (_update_status now r) = accuracy_rate r
  /\ difficulty_rating (_update_status now r) = difficulty_rating r
  /\ next_review_at (_update_status now r) = next_review_at r.
Proof. unfold _update_status. split_ifs; repeat split. Qed.

Lemma update_metrics_frame (rt : option Q) (d : option Z)
    (r : UserWordProgress) :
  srs_fields (update_metrics rt d r) = srs_fields r
  /\ status (update_metrics rt d r) = status r
  /\ mastered_at (update_metrics rt d r) = mastered_at r
  /\ accuracy_rate (update_metrics rt d r) =
     (if total_reviews r =? 0 then accuracy_rate r
      else Some (inject_Z (correct_reviews r) / inject_Z (total_reviews r))%Q)
  /\ difficulty_rating (update_metrics rt d r) =
     match d with Some v => Some v | None => difficulty_rating r end.
Proof.
  unfold update_metrics, calculate_accuracy_rate.
  destruct rt, d, (total_reviews r =? 0); cbn;
    try destruct (average_response_time r); repeat split.
Qed.

Lemma record_review_srs_fields (c : bool) (rt : option Q) (d : option Z)
    (clk : Clock) (r : UserWordProgress) :
  srs_fields (record_review c rt d clk r) = srs_fields (count_outcome c clk r).
Proof.
  rewrite record_review_stages.
  destruct (schedule_frame (at_schedule clk)
              (_update_status (at_mastered clk) (before_status c rt d clk r)))
    as [-> _].
  destruct (update_status_frame (at_mastered clk) (before_status c rt d clk r))
    as [-> _].
  unfold before_status.
  destruct (update_metrics_frame rt d (count_outcome c clk r)) as [-> _].
  reflexivity.
Qed.

Lemma srs_fields_inv (r r' : UserWordProgress) :
  srs_fields r' = srs_fields r ->
  srs_level r' = srs_level r /\ srs_interval r' = srs_interval r
  /\ ease_factor r' = ease_factor r /\ total_reviews r' = total_reviews r
  /\ correct_reviews r' = correct_reviews r
  /\ consecutive_correct r' = consecutive_correct r
  /\ consecutive_incorrect r' = consecutive_incorrect r.
Proof. unfold srs_fields. intro H. injection H as -> -> -> -> -> -> ->. repeat split. Qed.

(** What [count_outcome] computes on a correct answer. *)
Lemma count_outcome_correct (clk : Clock) (r : UserWordProgress) :
  let r' := count_outcome true clk r in
  srs_level r' =
    (if srs_level r =? 0 then 1 else if srs_level r =? 1 then 2
     else srs_level r + 1)
  /\ srs_interval r' =
    (if srs_level r =? 0 then 1 else if srs_level r =? 1 then 6
     else Py.int (inject_Z (srs_interval r) * ease_factor r)%Q)
  /\ ease_factor r' =
    (if 2 <=? consecutive_correct r + 1
     then Py.min (ease_factor r + (1 # 10))%Q (3 # 1)%Q else ease_factor r)
  /\ total_reviews r' = total_reviews r + 1
  /\ correct_reviews r' = correct_reviews r + 1
  /\ consecutive_correct r' = consecutive_correct r + 1
  /\ consecutive_incorrect r' = 0
  /\ status r' = status r /\ mastered_at r' = mastered_at r.
Proof.
  unfold count_outcome, _update_srs_success. cbn.
  destruct (first_correct_at r); cbn;
    destruct (srs_level r =? 0); [| destruct (srs_level r =? 1) | | destruct (srs_level r =? 1)];
    cbn; destruct (2 <=? consecutive_correct r + 1); cbn; repeat split.
Qed.

(** What [count_outcome] computes on an incorrect answer. *)
Lemma count_outcome_incorrect (clk : Clock) (r : UserWordProgress) :
  let r' := count_outcome false clk r in
  srs_level r' = Z.max 0 (srs_level r - 1)
  /\ srs_interval r' = 1
  /\ ease_factor r' =
    (if 2 <=? consecutive_incorrect r + 1
     then Py.max (ease_factor r - (2 # 10))%Q (13 # 10)%Q else ease_factor r)
  /\ total_reviews r' = total_reviews r + 1
  /\ correct_reviews r' = correct_reviews r
  /\ consecutive_correct r' = 0
  /\ consecutive_incorrect r' = consecutive_incorrect r + 1
  /\ status r' = status r /\ mastered_at r' = mastered_at r.
Proof.
  unfold count_outcome, _update_srs_failure. cbn.
  destruct (2 <=? consecutive_incorrect r + 1); cbn; repeat split.
Qed.


(** ** The SRS update *)



(** ** The status rules *)

Lemma mastery_guard_rule (r : UserWordProgress) :
  mastery_guard r = true <-> mastery_rule r.
Proof.
  unfold mastery_guard, mastery_rule. rewrite !andb_true_iff. split.
  - intros [[[_ Ha] Hl] Hc]. destruct (accuracy_rate r) as [a |]; [| discriminate].
    exists a. apply Qleb_true in Ha. apply Z.leb_le in Hl, Hc. auto.
  - intros (a & -> & Ha & Hl & Hc). repeat split.
    + cbn. apply negb_true_iff. destruct (Qeq_bool a 0) eqn:E; [| reflexivity].
      apply Qeq_bool_iff in E. rewrite E in Ha. exfalso. revert Ha. apply Qlt_not_le.
      reflexivity.
    + apply Qleb_true, Ha.
    + apply Z.leb_le, Hl.
    + apply Z.leb_le, Hc.
Qed.

Lemma demotion_guard_rule (r : UserWordProgress) :
  demotion_guard r = true <-> demotion_rule r.
Proof.
  unfold demotion_guard, demotion_rule.
  rewrite andb_true_iff, String.eqb_eq, Z.leb_le. reflexivity.
Qed.

(** The failure guard asks for a truthy accuracy on top of the rule: an
    accuracy of 0.0 does not pass. *)
Lemma failed_guard_rule (r : UserWordProgress) :
  failed_guard r = true <->
  failed_rule r /\ exists a, accuracy_rate r = Some a /\ ~ (a == 0)%Q.
Proof.
  unfold failed_guard, failed_rule. rewrite !andb_true_iff. split.
  - intros [[[Ht Hn] Ha] Hc]. destruct (accuracy_rate r) as [a |]; [| discriminate].
    apply Qltb_true in Ha. apply Z.leb_le in Ht, Hc. cbn in Hn.
    apply negb_true_iff in Hn. split.
    + exists a. auto.
    + exists a. split; [reflexivity |]. intro E. apply Qeq_bool_iff in E. congruence.
  - intros [(a & E & Ha & Ht & Hc) (a' & E' & Hn)]. rewrite E in *.
    injection E' as <-. repeat split.
    + apply Z.leb_le, Ht.
    + cbn. apply negb_true_iff. destruct (Qeq_bool a 0) eqn:Q0; [| reflexivity].
      apply Qeq_bool_iff in Q0. contradiction.
    + apply Qltb_true, Ha.
    + apply Z.leb_le, Hc.
Qed.

Lemma guards_after_rule_1 (r : UserWordProgress) :
  mastery_guard (set_status "learning" r) = mastery_guard r
  /\ failed_guard (set_status "learning" r) = failed_guard r
  /\ demotion_guard (set_status "learning" r) = false.
Proof. repeat split. Qed.

(** [_update_status], case by case. *)
Lemma update_status_cases (now : Py.datetime) (r : UserWordProgress) :
  let r' := _update_status now r in
  let s1 := if String.eqb (status r) "new" && (0 <? total_reviews r)
            then "learning"%string else status r in
  if mastery_guard r then
    status r' = "mastered"%string
    /\ mastered_at r' =
       match mastered_at r with Some t => Some t | None => Some now end
  else if demotion_guard r then
    status r' = "review"%string /\ mastered_at r' = mastered_at r
  else if failed_guard r then
    status r' = "failed"%string /\ mastered_at r' = mastered_at r
  else status r' = s1 /\ mastered_at r' = mastered_at r.
Proof.
  unfold _update_status.
  destruct (String.eqb (status r) "new" && (0 <? total_reviews r)) eqn:R1.
  - destruct (guards_after_rule_1 r) as (-> & -> & ->).
    assert (Hd : demotion_guard r = false).
    { unfold demotion_guard. apply andb_true_iff in R1 as [E _].
      apply String.eqb_eq in E. rewrite E. reflexivity. }
    rewrite Hd.
    destruct (mastery_guard r); [| destruct (failed_guard r)]; cbn;
      try destruct (mastered_at r) eqn:Em; cbn; rewrite ?Em; split; reflexivity.
  - destruct (mastery_guard r); [| destruct (demotion_guard r);
      [| destruct (failed_guard r)]]; cbn;
      try destruct (mastered_at r) eqn:Em; cbn; rewrite ?Em; split; reflexivity.
Qed.

(** C4.  The status step follows the priority order of the rules.  A record
    that meets the mastery rule becomes [mastered], also when it was [new],
    and [mastered_at] takes the clock reading only when it was unset.
    Otherwise a [mastered] record with two consecutive incorrect answers is
    demoted to [review].  Otherwise the status is [failed] (and then the
    failure rule holds), or it is the outcome of the first rule: [learning]
    for a [new] record with a review, the former status for any other; in
    particular a [new] record with a review that meets none of the later
    rules becomes [learning].  Outside the mastery rule [mastered_at] is
    left as it was. *)
Theorem update_status_priority (now : Py.datetime) (r : UserWordProgress) :
  let r' := _update_status now r in
  (mastery_rule r ->
     status r' = "mastered"%string
     /\ mastered_at r' =
        match mastered_at r with Some t => Some t | None => Some now end)
  /\ (~ mastery_rule r -> demotion_rule r ->
     status r' = "review"%string /\ mastered_at r' = mastered_at r)
  /\ (~ mastery_rule r -> ~ demotion_rule r ->
     mastered_at r' = mastered_at r
     /\ ((status r' = "failed"%string /\ failed_rule r)
         \/ (status r' = "learning"%string
             /\ status r = "new"%string /\ 0 < total_reviews r)
         \/ (status r' = status r
             /\ ~ (status r = "new"%string /\ 0 < total_reviews r))))
  /\ (status r = "new"%string -> 0 < total_reviews r ->
      ~ mastery_rule r -> ~ failed_rule r -> status r' = "learning"%string).
Proof.
  intro r'. pose proof (update_status_cases now r) as H. cbv zeta in H.
  fold r' in H.
  destruct (mastery_guard r) eqn:M.
  { apply mastery_guard_rule in M. repeat split; try tauto; apply H. }
  assert (NM : ~ mastery_rule r).
  { intro K. apply mastery_guard_rule in K. congruence. }
  destruct (demotion_guard r) eqn:D.
  { apply demotion_guard_rule in D. split; [tauto |]. split; [tauto |].
    split; [tauto |]. intros E _ _ _. destruct D as [D _]. congruence. }
  assert (ND : ~ demotion_rule r).
  { intro K. apply demotion_guard_rule in K. congruence. }
  destruct (failed_guard r) eqn:F.
  { apply failed_guard_rule in F as [F _]. split; [tauto |]. split; [tauto |].
    split; [| tauto]. intros _ _. split; [apply H |]. left. split; [apply H | exact F]. }
  destruct H as [Hs Hm]. split; [tauto |]. split; [tauto |]. split.
  - intros _ _. split; [exact Hm |]. right.
    destruct (String.eqb (status r) "new" && (0 <? total_reviews r)) eqn:R1.
    + left. apply andb_true_iff in R1 as [E T].
      apply String.eqb_eq in E. apply Z.ltb_lt in T. auto.
    + right. split; [exact Hs |]. intros [E T].
      apply String.eqb_eq in E. apply Z.ltb_lt in T. rewrite E, T in R1.
      discriminate.
  - intros E T _ _. apply String.eqb_eq in E. apply Z.ltb_lt in T.
    rewrite E, T in Hs. exact Hs.
Qed.

Lemma update_status_priority_witness :
  mastery_rule scenario_e
  /\ status (_update_status 77 scenario_e) = "mastered"%string
  /\ mastered_at (_update_status 77 scenario_e) = Some 77.
Proof.
  assert (M : mastery_rule scenario_e).
  { exists (95 # 100)%Q. repeat split; cbn; try lia. discriminate. }
  split; [exact M |].
  destruct (update_status_priority 77 scenario_e) as [H _].
  exact (H M).
Defined.

(** ** Scheduling *)



(** ** The failure rule and an accuracy of zero *)

(** When the accuracy after the update is not zero, the failure rule fires
    as the specification says. *)
Lemma failed_rule_fires (now : Py.datetime) (r : UserWordProgress) :
  failed_rule r -> (exists a, accuracy_rate r = Some a /\ ~ (a == 0)%Q) ->
  ~ mastery_rule r -> ~ demotion_rule r ->
  status (_update_status now r) = "failed"%string.
Proof.
  intros F N NM ND. pose proof (update_status_cases now r) as H. cbv zeta in H.
  destruct (mastery_guard r) eqn:M; [apply mastery_guard_rule in M; tauto |].
  destruct (demotion_guard r) eqn:D; [apply demotion_guard_rule in D; tauto |].
  assert (G : failed_guard r = true) by (apply failed_guard_rule; auto).
  rewrite G in H. apply H.
Qed.

(** C2, at the failing input: a fresh record answered incorrectly five times.
    At the fifth call the record that [_update_status] examines has five
    reviews, an accuracy of 0 (below 0.3), five consecutive incorrect answers,
    and neither the mastery nor the demotion rule applies; the call leaves
    the status [learning], not [failed]. *)
Theorem all_incorrect_not_failed :
  let r4 := reviews (repeat incorrect 4) fresh in
  let b := before_status false None None clk0 r4 in
  failed_rule b /\ ~ mastery_rule b /\ ~ demotion_rule b
  /\ accuracy_rate b = Some (0 # 5)%Q
  /\ status (record_review false None None clk0 r4) = "learning"%string
  /\ status (record_review false None None clk0 r4) <> "failed"%string.
Proof.
  cbv zeta. repeat split.
  - exists (0 # 5)%Q. repeat split; vm_compute; congruence.
  - intros (a & E & _ & L & _). vm_compute in L. congruence.
  - intros [E _]. vm_compute in E. discriminate.
  - vm_compute. discriminate.
Qed.

(** ** Invariants of a run of reviews *)

Lemma record_review_accuracy (c : bool) (rt : option Q) (d : option Z)
    (clk : Clock) (r : UserWordProgress) :
  0 <= total_reviews r ->
  let r' := record_review c rt d clk r in
  accuracy_rate r' =
  Some (inject_Z (correct_reviews r') / inject_Z (total_reviews r'))%Q.
Proof.
  intros Ht r'.
  destruct (srs_fields_inv _ _ (record_review_srs_fields c rt d clk r))
    as (_ & _ & _ & Et & Ec & _).
  fold r' in Et, Ec. rewrite Et, Ec. unfold r'. rewrite record_review_stages.
  destruct (schedule_frame (at_schedule clk)
              (_update_status (at_mastered clk) (before_status c rt d clk r)))
    as (_ & _ & -> & _).
  destruct (update_status_frame (at_mastered clk) (before_status c rt d clk r))
    as (_ & -> & _).
  unfold before_status.
  destruct (update_metrics_frame rt d (count_outcome c clk r))
    as (_ & _ & _ & -> & _).
  assert (T : total_reviews (count_outcome c clk r) = total_reviews r + 1).
  { destruct c.
    - apply (count_outcome_correct clk r).
    - apply (count_outcome_incorrect clk r). }
  rewrite T. destruct (total_reviews r + 1 =? 0) eqn:E; [| reflexivity].
  apply Z.eqb_eq in E. lia.
Qed.

Lemma srs_invariant_step (r : UserWordProgress) (ev : Review) :
  srs_invariant r -> srs_invariant (review r ev).
Proof.
  intros (Hl & Hi & [He1 He2] & Ht & _). unfold review.
  destruct ev as [c rt d clk]. cbn [is_correct response_time difficulty clock].
  pose proof (record_review_accuracy c rt d clk r Ht) as Ha. cbv zeta in Ha.
  destruct (srs_fields_inv _ _ (record_review_srs_fields c rt d clk r))
    as (El & Ei & Ee & Et & _).
  unfold srs_invariant. rewrite Ha, El, Ei, Ee, Et. clear Ha El Ei Ee Et.
  destruct c.
  - destruct (count_outcome_correct clk r) as (L & I & E & T & _).
    rewrite L, I, E, T. repeat split; try lia.
    + destruct (srs_level r =? 0); [lia |]. destruct (srs_level r =? 1); lia.
    + destruct (srs_level r =? 0); [lia |]. destruct (srs_level r =? 1); [lia |].
      apply py_int_ge_1; [exact Hi | lra].
    + destruct (2 <=? consecutive_correct r + 1); [| exact He1].
      apply py_min_bounds; lra.
    + destruct (2 <=? consecutive_correct r + 1); [| exact He2].
      apply (py_min_bounds (13 # 10)); lra.
  - destruct (count_outcome_incorrect clk r) as (L & I & E & T & _).
    rewrite L, I, E, T. repeat split; try lia.
    + destruct (2 <=? consecutive_incorrect r + 1); [| exact He1].
      apply (py_max_bounds 3); lra.
    + destruct (2 <=? consecutive_incorrect r + 1); [| exact He2].
      apply (py_max_bounds 3); lra.
Qed.

Lemma srs_invariant_run (evs : list Review) (r : UserWordProgress) :
  srs_invariant r -> srs_invariant (reviews evs r).
Proof.
  revert r. induction evs as [| ev evs IH]; intros r H; [exact H |].
  cbn. apply IH, srs_invariant_step, H.
Qed.

Lemma srs_invariant_new (pk uid wid : Z) (now : Py.datetime) :
  srs_invariant (new_progress pk uid wid now).
Proof.
  unfold srs_invariant. cbn. repeat split; try lia; try lra.
Qed.

(** C3.  From a freshly created record (status new, level 0, interval 1,
    ease 2.5), after any run of [record_review] calls with any outcomes and
    arguments, the level is not negative, the interval is at least 1, the
    ease factor lies between 1.3 and 3.0, and the accuracy is
    [correct_reviews / total_reviews] whenever there has been a review. *)
Theorem fresh_record_invariants (pk uid wid : Z) (now : Py.datetime)
    (evs : list Review) :
  let r := reviews evs (new_progress pk uid wid now) in
  0 <= srs_level r
  /\ 1 <= srs_interval r
  /\ ((13 # 10) <= ease_factor r <= 3)%Q
  /\ (0 < total_reviews r ->
      accuracy_rate r =
      Some (inject_Z (correct_reviews r) / inject_Z (total_reviews r))%Q).
Proof.
  intro r.
  destruct (srs_invariant_run evs _ (srs_invariant_new pk uid wid now))
    as (H1 & H2 & H3 & _ & H5).
  auto.
Qed.

Lemma fresh_record_invariants_witness :
  0 < total_reviews (reviews [correct; incorrect] fresh)
  /\ accuracy_rate (reviews [correct; incorrect] fresh) = Some (1 # 2)%Q.
Proof.
  assert (T : 0 < total_reviews (reviews [correct; incorrect] fresh))
    by (vm_compute; reflexivity).
  split; [exact T |].
  destruct (fresh_record_invariants 1 1 1 0 [correct; incorrect])
    as (_ & _ & _ & H).
  unfold fresh. rewrite (H T). vm_compute. reflexivity.
Defined.

(** ** The way out of [failed] *)

Lemma before_status_status (c : bool) (rt : option Q) (d : option Z)
    (clk : Clock) (r : UserWordProgress) :
  status (before_status c rt d clk r) = status r.
Proof.
  unfold before_status.
  destruct (update_metrics_frame rt d (count_outcome c clk r)) as (_ & -> & _).
  destruct c.
  - apply (count_outcome_correct clk r).
  - apply (count_outcome_incorrect clk r).
Qed.

Lemma record_review_status (c : bool) (rt : option Q) (d : option Z)
    (clk : Clock) (r : UserWordProgress) :
  status (record_review c rt d clk r) =
  status (_update_status (at_mastered clk) (before_status c rt d clk r)).
Proof. rewrite record_review_stages. apply schedule_frame. Qed.

Lemma past_learning_step (r : UserWordProgress) (ev : Review) :
  past_learning r -> past_learning (review r ev).
Proof.
  intro H. unfold review, past_learning. rewrite record_review_status.
  set (b := before_status _ _ _ _ r).
  assert (Sb : status b = status r) by apply before_status_status.
  pose proof (update_status_cases (at_mastered (clock ev)) b) as K.
  cbv zeta in K. rewrite Sb in K.
  assert (N : String.eqb (status r) "new" = false).
  { destruct H as [-> | [-> | ->]]; reflexivity. }
  rewrite N in K. cbn [andb] in K.
  destruct (mastery_guard b); [tauto |].
  destruct (demotion_guard b); [tauto |].
  destruct (failed_guard b); [tauto |].
  destruct K as [-> _]. exact H.
Qed.

Lemma past_learning_run (evs : list Review) (r : UserWordProgress) :
  past_learning r -> past_learning (reviews evs r).
Proof.
  revert r. induction evs as [| ev evs IH]; intros r H; [exact H |].
  cbn. apply IH, past_learning_step, H.
Qed.

(** C10, as the code has it.  One [record_review] call on a [failed] record
    leaves it [failed] or moves it to [mastered], the latter exactly when the
    mastery rule holds after the update.  No run of calls returns a [failed]
    record to [new] or [learning]; it stays among [failed], [mastered] and
    [review], and [review] is entered from [mastered] only. *)
Theorem failed_record_transitions (r : UserWordProgress) :
  status r = "failed"%string ->
  (forall c rt d clk,
      let r' := record_review c rt d clk r in
      (status r' = "failed"%string \/ status r' = "mastered"%string)
      /\ (status r' = "mastered"%string <->
          mastery_rule (before_status c rt d clk r)))
  /\ (forall evs,
      let r' := reviews evs r in
      status r' = "failed"%string \/ status r' = "mastered"%string
      \/ status r' = "review"%string)
  /\ (forall evs ev,
      status (reviews (evs ++ [ev]) r) = "review"%string ->
      status (reviews evs r) = "mastered"%string
      \/ status (reviews evs r) = "review"%string).
Proof.
  intro F. split; [| split].
  - intros c rt d clk r'. unfold r'. rewrite record_review_status.
    set (b := before_status c rt d clk r).
    assert (Sb : status b = status r) by apply before_status_status.
    pose proof (update_status_cases (at_mastered clk) b) as K.
    cbv zeta in K. rewrite Sb, F in K. cbn [String.eqb andb] in K.
    change (if (("failed" =? "new")%string && (0 <? total_reviews b))%bool
            then "learning"%string else "failed"%string)
      with "failed"%string in K.
    destruct (mastery_guard b) eqn:M.
    + apply mastery_guard_rule in M. destruct K as [-> _]. tauto.
    + assert (NM : ~ mastery_rule b).
      { intro X. apply mastery_guard_rule in X. congruence. }
      assert (D : demotion_guard b = false).
      { unfold demotion_guard. rewrite Sb, F. reflexivity. }
      rewrite D in K.
      assert (S : status (_update_status (at_mastered clk) b) = "failed"%string).
      { destruct (failed_guard b); apply K. }
      rewrite S. split; [tauto |]. split; [discriminate | tauto].
  - intros evs. apply past_learning_run. left. exact F.
  - intros evs ev. unfold reviews. rewrite fold_left_app. cbn.
    fold (reviews evs r). intro R.
    assert (P : past_learning (reviews evs r)).
    { apply past_learning_run. left. exact F. }
    destruct P as [P | P]; [| exact P]. exfalso.
    unfold review in R. rewrite record_review_status in R.
    set (x := reviews evs r) in *.
    set (b := before_status _ _ _ _ x) in R.
    assert (Sb : status b = status x) by apply before_status_status.
    pose proof (update_status_cases (at_mastered (clock ev)) b) as K.
    cbv zeta in K. rewrite Sb, P in K.
    change (if (("failed" =? "new")%string && (0 <? total_reviews b))%bool
            then "learning"%string else "failed"%string)
      with "failed"%string in K.
    assert (D : demotion_guard b = false).
    { unfold demotion_guard. rewrite Sb, P. reflexivity. }
    rewrite D in K.
    destruct (mastery_guard b); [| destruct (failed_guard b)];
      destruct K as [K _]; rewrite K in R; discriminate.
Qed.

Lemma failed_record_transitions_witness :
  status (reviews failing_prefix fresh) = "failed"%string
  /\ (status (record_review true None None clk0 (reviews failing_prefix fresh))
      = "failed"%string
      \/ status (record_review true None None clk0 (reviews failing_prefix fresh))
         = "mastered"%string).
Proof.
  assert (F : status (reviews failing_prefix fresh) = "failed"%string)
    by (vm_compute; reflexivity).
  split; [exact F |].
  destruct (failed_record_transitions (reviews failing_prefix fresh) F)
    as [H _].
  exact (proj1 (H true None None clk0)).
Defined.

(** C10, as stated, fails: a record that has become [failed] after one
    correct and four incorrect answers is [review] again after thirteen
    rounds of eleven correct answers and one incorrect, eleven more correct
    answers (it is [mastered] then) and two incorrect ones. *)
Lemma failed_record_returns_to_review :
  status (reviews failing_prefix fresh) = "failed"%string
  /\ status (reviews (firstn 167 recovery) (reviews failing_prefix fresh))
     = "mastered"%string
  /\ status (reviews recovery (reviews failing_prefix fresh)) = "review"%string
  /\ ~ (forall r evs, status r = "failed"%string ->
          status (reviews evs r) <> "learning"%string
          /\ status (reviews evs r) <> "review"%string).
Proof.
  assert (F : status (reviews failing_prefix fresh) = "failed"%string)
    by (vm_compute; reflexivity).
  assert (R : status (reviews recovery (reviews failing_prefix fresh))
              = "review"%string) by (vm_compute; reflexivity).
  split; [exact F |]. split; [vm_compute; reflexivity |]. split; [exact R |].
  intro H. destruct (H (reviews failing_prefix fresh) recovery F) as [_ K].
  exact (K R).
Qed.

(** ** The progress table *)

Lemma same_key_true (uid wid : Z) (r : UserWordProgress) :
  same_key uid wid r = true <-> key r = (uid, wid).
Proof.
  unfold same_key, key. rewrite andb_true_iff, !Z.eqb_eq. split.
  - intros [-> ->]. reflexivity.
  - intro H. injection H as -> ->. auto.
Qed.

Lemma filter_absent (uid wid : Z) (t : Table) :
  ~ In (uid, wid) (map key t) -> filter (same_key uid wid) t = [].
Proof.
  induction t as [| x t IH]; intro H; [reflexivity |]. cbn in *.
  destruct (same_key uid wid x) eqn:E.
  - apply same_key_true in E. tauto.
  - apply IH. tauto.
Qed.

Lemma filter_present (uid wid : Z) (t : Table) :
  In (uid, wid) (map key t) -> filter (same_key uid wid) t <> [].
Proof.
  intros H E. apply in_map_iff in H as (r & K & I).
  assert (X : In r (filter (same_key uid wid) t)).
  { apply filter_In. split; [exact I |]. apply same_key_true, K. }
  rewrite E in X. exact X.
Qed.

Lemma filter_unique (t : Table) (p : UserWordProgress) :
  unique_keys t -> In p t ->
  filter (same_key (user_id p) (word_id p)) t = [p].
Proof.
  unfold unique_keys. induction t as [| x t IH]; intros U I; [destruct I |].
  cbn in U. apply NoDup_cons_iff in U as [N U]. cbn.
  destruct I as [-> | I].
  - assert (E : same_key (user_id p) (word_id p) p = true)
      by (apply same_key_true; reflexivity).
    rewrite E. f_equal. apply filter_absent. exact N.
  - destruct (same_key (user_id p) (word_id p) x) eqn:E.
    + apply same_key_true in E. exfalso. apply N. rewrite E.
      apply (in_map key) in I. exact I.
    + apply IH; assumption.
Qed.

Lemma get_absent (uid wid : Z) (t : Table) :
  ~ In (uid, wid) (map key t) -> get_by_user_and_word uid wid t = Ok (None, t).
Proof.
  intro H. unfold get_by_user_and_word. rewrite filter_absent by exact H.
  reflexivity.
Qed.

Lemma get_present (t : Table) (p : UserWordProgress) :
  unique_keys t -> In p t ->
  get_by_user_and_word (user_id p) (word_id p) t = Ok (Some p, t).
Proof.
  intros U I. unfold get_by_user_and_word. rewrite filter_unique by assumption.
  reflexivity.
Qed.

(** What a successful lookup says about the table. *)
Lemma get_some_inv (uid wid : Z) (t t' : Table) (p : UserWordProgress) :
  get_by_user_and_word uid wid t = Ok (Some p, t') ->
  t' = t /\ filter (same_key uid wid) t = [p].
Proof.
  unfold get_by_user_and_word.
  destruct (filter (same_key uid wid) t) as [| x [| y l]]; intro H;
    inversion H; subst; auto.
Qed.

Lemma in_keys_dec (k : Z * Z) (l : list (Z * Z)) : {In k l} + {~ In k l}.
Proof.
  apply in_dec. intros [a b] [c d].
  destruct (Z.eq_dec a c), (Z.eq_dec b d); [left | right | right | right];
    congruence.
Defined.

Lemma unique_index_free_true (uid wid : Z) (t : Table) :
  ~ In (uid, wid) (map key t) -> unique_index_free uid wid t = true.
Proof.
  intro H. unfold unique_index_free. apply negb_true_iff.
  destruct (existsb (same_key uid wid) t) eqn:E; [| reflexivity].
  apply existsb_exists in E as (r & I & K). apply same_key_true in K.
  exfalso. apply H. rewrite <- K. apply in_map, I.
Qed.

Lemma check_constraints_new (pk uid wid : Z) (now : Py.datetime) :
  check_constraints (new_progress pk uid wid now) = true.
Proof. reflexivity. Qed.

Lemma create_absent (now : Py.datetime) (uid wid : Z) (t : Table) :
  ~ In (uid, wid) (map key t) ->
  create now uid wid t =
  Ok (new_progress (next_id t) uid wid now,
      t ++ [new_progress (next_id t) uid wid now]).
Proof.
  intro H. unfold create.
  rewrite unique_index_free_true by exact H.
  rewrite check_constraints_new. reflexivity.
Qed.

Lemma unique_keys_snoc (t : Table) (r : UserWordProgress) :
  unique_keys t -> ~ In (key r) (map key t) -> unique_keys (t ++ [r]).
Proof.
  unfold unique_keys. intros U N. rewrite map_app. cbn.
  apply NoDup_app; [exact U | repeat constructor; intros [] | ].
  intros k I [<- | []]. contradiction.
Qed.

(** [create_or_get_progress] on a table with unique keys: the stored row and
    the table untouched, or a new row appended. *)
Lemma create_or_get_progress_run (now : Py.datetime) (uid wid : Z) (t : Table) :
  unique_keys t ->
  (exists p, In p t /\ key p = (uid, wid)
             /\ create_or_get_progress now uid wid t = Ok (p, t))
  \/ (~ In (uid, wid) (map key t)
      /\ create_or_get_progress now uid wid t =
         Ok (new_progress (next_id t) uid wid now,
             t ++ [new_progress (next_id t) uid wid now])).
Proof.
  intro U. unfold create_or_get_progress, bind.
  destruct (in_keys_dec (uid, wid) (map key t)) as [I | N].
  - left. apply in_map_iff in I as (p & K & I). exists p.
    split; [exact I |]. split; [exact K |].
    unfold key in K. injection K as <- <-.
    rewrite get_present by assumption. reflexivity.
  - right. split; [exact N |]. rewrite get_absent by exact N. cbn.
    apply create_absent, N.
Qed.

Lemma create_or_get_progress_unique (now : Py.datetime) (uid wid : Z)
    (t : Table) :
  unique_keys t ->
  exists p t', create_or_get_progress now uid wid t = Ok (p, t')
               /\ unique_keys t' /\ In p t' /\ key p = (uid, wid).
Proof.
  intro U. destruct (create_or_get_progress_run now uid wid t U)
    as [(p & I & K & E) | (N & E)].
  - exists p, t. auto.
  - eexists _, _. split; [exact E |]. split; [| split].
    + apply unique_keys_snoc; [exact U | exact N].
    + apply in_or_app. right. left. reflexivity.
    + reflexivity.
Qed.

Lemma create_or_get_all_unique (calls : list (Py.datetime * Z * Z)) (t : Table) :
  unique_keys t ->
  exists ps t', create_or_get_all calls t = Ok (ps, t') /\ unique_keys t'.
Proof.
  revert t. induction calls as [| [[now uid] wid] rest IH]; intros t U.
  - exists [], t. split; [reflexivity | exact U].
  - destruct (create_or_get_progress_unique now uid wid t U)
      as (p & t1 & E & U1 & _).
    destruct (IH t1 U1) as (ps & t2 & E2 & U2).
    exists (p :: ps), t2. split; [| exact U2].
    cbn. unfold bind. rewrite E, E2. reflexivity.
Qed.

(** C9.  When a record exists for the pair, [create_or_get_progress] returns
    it and creates nothing.  On a table with unique keys two calls in
    sequence return the same record, the second leaves the table as the
    first left it, and the pair has exactly that one row.  Whatever calls are
    made from the empty table, each succeeds and no pair ever has two rows. *)
Theorem create_or_get_progress_idempotent (now now' : Py.datetime)
    (uid wid : Z) (t : Table) :
  (forall p, get_by_user_and_word uid wid t = Ok (Some p, t) ->
     create_or_get_progress now uid wid t = Ok (p, t))
  /\ (unique_keys t ->
      exists p t1,
        create_or_get_progress now uid wid t = Ok (p, t1)
        /\ create_or_get_progress now' uid wid t1 = Ok (p, t1)
        /\ unique_keys t1
        /\ filter (same_key uid wid) t1 = [p])
  /\ (forall calls, exists ps t',
        create_or_get_all calls [] = Ok (ps, t') /\ unique_keys t').
Proof.
  split; [| split].
  - intros p H. unfold create_or_get_progress, bind. rewrite H. reflexivity.
  - intro U.
    destruct (create_or_get_progress_unique now uid wid t U)
      as (p & t1 & E & U1 & I & K).
    exists p, t1. split; [exact E |].
    unfold key in K. injection K as <- <-.
    split; [| split; [exact U1 | apply filter_unique; assumption]].
    unfold create_or_get_progress, bind.
    rewrite get_present by assumption. reflexivity.
  - intro calls. apply create_or_get_all_unique. constructor.
Qed.

Lemma create_or_get_progress_idempotent_witness :
  unique_keys [fresh]
  /\ create_or_get_progress 5 1 1 [fresh] = Ok (fresh, [fresh])
  /\ exists p t1,
       create_or_get_progress 5 1 2 [fresh] = Ok (p, t1)
       /\ create_or_get_progress 9 1 2 t1 = Ok (p, t1).
Proof.
  assert (U : unique_keys [fresh]).
  { repeat constructor. intros []. }
  split; [exact U |]. split.
  - apply (create_or_get_progress_idempotent 5 5 1 1 [fresh]). reflexivity.
  - destruct (create_or_get_progress_idempotent 5 9 1 2 [fresh])
      as (_ & H & _).
    destruct (H U) as (p & t1 & E1 & E2 & _).
    exists p, t1. split; assumption.
Defined.

(** ** Recording a review through the service *)

Lemma accuracy_in_range (c t : Z) :
  0 <= c <= t -> 0 < t ->
  (0 <= inject_Z c / inject_Z t <= 1)%Q.
Proof.
  intros [Hc Hct] Ht.
  assert (Ht' : (0 < inject_Z t)%Q).
  { change 0%Q with (inject_Z 0). rewrite <- Zlt_Qlt. exact Ht. }
  assert (Hc' : (0 <= inject_Z c)%Q).
  { change 0%Q with (inject_Z 0). rewrite <- Zle_Qle. exact Hc. }
  assert (Hct' : (inject_Z c <= inject_Z t)%Q) by (rewrite <- Zle_Qle; exact Hct).
  split.
  - apply Qle_shift_div_l; [exact Ht' |]. lra.
  - apply Qle_shift_div_r; [exact Ht' |]. lra.
Qed.










(** ** The daily session planner *)

Lemma insert_by_next_review_perm (r : UserWordProgress)
    (l : list UserWordProgress) :
  Permutation (insert_by_next_review r l) (r :: l).
Proof.
  induction l as [| x l IH]; cbn; [reflexivity |].
  destruct (next_review_at r <? next_review_at x); [reflexivity |].
  rewrite IH. apply perm_swap.
Qed.

Lemma order_by_next_review_perm (l : list UserWordProgress) :
  Permutation (order_by_next_review l) l.
Proof.
  induction l as [| x l IH]; cbn; [reflexivity |].
  rewrite insert_by_next_review_perm. apply perm_skip, IH.
Qed.

Section Planner.

Variable supply : User.t -> Z -> list Z -> list Word.t.

Lemma assign_words_to_user_unique (now : Py.datetime) (user : User.t)
    (words : list Word.t) (t : Table) :
  unique_keys t ->
  exists ps t', assign_words_to_user now user words t = Ok (ps, t')
                /\ unique_keys t'.
Proof.
  revert t. induction words as [| w words IH]; intros t U.
  - exists [], t. split; [reflexivity | exact U].
  - destruct (create_or_get_progress_unique now (User.id user) (Word.id w) t U)
      as (p & t1 & E & U1 & _).
    destruct (IH t1 U1) as (ps & t2 & E2 & U2).
    exists (p :: ps), t2. split; [| exact U2].
    cbn. unfold bind. rewrite E, E2. reflexivity.
Qed.

(** The whole result of the planner with both flags set, on a table with
    unique keys. *)
Lemma get_daily_learning_words_run (now created : Py.datetime) (user : User.t)
    (t : Table) :
  unique_keys t ->
  let due := order_by_next_review (due_rows now (User.id user) t) in
  let remaining := remaining_slots user (List.length due) in
  let new_words :=
    if 0 <? remaining
    then supply user remaining (learned_ids (User.id user) t) else [] in
  exists t',
    get_daily_learning_words supply now created user true true t =
    Ok ([("review_words", VProgress due); ("new_words", VWords new_words);
         ("total_count",
          VInt (Z.of_nat (List.length due) + Z.of_nat (List.length new_words)))
        ]%string, t')
    /\ unique_keys t'.
Proof.
  intros U due remaining new_words.
  unfold get_daily_learning_words, bind, get_words_due_for_review, ret.
  cbn -[Z.max Z.ltb Z.of_nat]. fold (due_rows now (User.id user) t). fold due.
  fold (remaining_slots user (List.length due)). fold remaining.
  unfold new_words. destruct (0 <? remaining) eqn:R.
  - unfold _get_user_learned_word_ids, bind, get_by_filter_user_id, ret.
    cbn -[Z.max Z.ltb Z.of_nat]. fold (learned_ids (User.id user) t).
    destruct (supply user remaining (learned_ids (User.id user) t))
      as [| w ws] eqn:S.
    + exists t. split; [reflexivity | exact U].
    + destruct (assign_words_to_user_unique created user (w :: ws) t U)
        as (ps & t' & E & U').
      exists t'. split; [| exact U']. rewrite E. reflexivity.
  - exists t. split; [reflexivity | exact U].
Qed.

End Planner.

Lemma three_fields_no_flag (a b c : value) :
  ~ signals_partial_assignment
      [("review_words", a); ("new_words", b); ("total_count", c)]%string.
Proof.
  intros (k & v & I & N1 & N2 & N3).
  destruct I as [E | [E | [E | []]]]; injection E as <- _; congruence.
Qed.

(** C7.  On a table with unique keys the daily plan (both flags set, as by
    default) succeeds; its review words are the due rows of the user, all of
    them, whatever the quota; its new words are what the word supply answers
    to a request for exactly max(0, quota - number of due rows) words that
    excludes the word id of every row of the user, due or not, and no
    request is made when that number is 0, as when the quota is 0 or less;
    [total_count] is the number of due rows plus the number of words
    supplied. *)
Theorem daily_session_plan (supply : User.t -> Z -> list Z -> list Word.t)
    (now created : Py.datetime) (user : User.t) (t : Table) :
  unique_keys t ->
  let due := due_rows now (User.id user) t in
  let remaining := Z.max 0 (User.daily_word_count user - Z.of_nat (List.length due)) in
  exists d t' review_words new_words,
    get_daily_learning_words supply now created user true true t = Ok (d, t')
    /\ dict_get "review_words" d = Some (VProgress review_words)
    /\ Permutation review_words due
    /\ (forall r, In r t -> user_id r = User.id user ->
                  next_review_at r <= now -> In r review_words)
    /\ dict_get "new_words" d = Some (VWords new_words)
    /\ new_words =
       (if 0 <? remaining
        then supply user remaining (learned_ids (User.id user) t) else [])
    /\ (User.daily_word_count user <= 0 -> new_words = [])
    /\ dict_get "total_count" d =
       Some (VInt (Z.of_nat (List.length due) + Z.of_nat (List.length new_words))).
Proof.
  intros U due remaining.
  destruct (get_daily_learning_words_run supply now created user t U)
    as (t' & E & _).
  pose proof (order_by_next_review_perm (due_rows now (User.id user) t)) as P.
  fold due in P, E.
  assert (L : List.length (order_by_next_review due) = List.length due)
    by (apply Permutation_length, P).
  unfold remaining_slots in E. rewrite L in E. fold remaining in E.
  eexists _, t', _, _. split; [exact E |].
  split; [reflexivity |]. split; [exact P |]. split.
  { intros r I Hu Hn. apply (Permutation_in r (Permutation_sym P)).
    unfold due, due_rows. apply filter_In. split; [exact I |].
    apply andb_true_iff. split; [apply Z.eqb_eq, Hu | apply Z.leb_le, Hn]. }
  split; [reflexivity |]. split; [reflexivity |]. split; [| reflexivity].
  intro Q. assert (R : (0 <? remaining) = false).
  { apply Z.ltb_ge. unfold remaining. lia. }
  rewrite R. reflexivity.
Qed.

Lemma scenario_f_unique : unique_keys scenario_f.
Proof.
  change (NoDup [(1, 1); (1, 2); (1, 3)]).
  repeat (apply NoDup_cons; [cbn; intuition congruence |]). apply NoDup_nil.
Qed.

Lemma daily_session_plan_witness :
  unique_keys scenario_f
  /\ exists d t',
       get_daily_learning_words one_word 100 100 learner true true scenario_f
       = Ok (d, t')
       /\ dict_get "total_count" d = Some (VInt 3).
Proof.
  split; [exact scenario_f_unique |].
  destruct (daily_session_plan one_word 100 100 learner scenario_f
              scenario_f_unique)
    as (d & t' & rw & nw & E & _ & _ & _ & _ & N & _ & T).
  exists d, t'. split; [exact E |]. rewrite T, N. reflexivity.
Defined.

(** C8, as the code has it.  When the word supply answers a request with
    fewer words than requested, the plan still succeeds; the result has the
    three fields [review_words], [new_words], [total_count] and no other, so
    no field flags the shortfall; [new_words] holds the words obtained and
    [total_count] counts the due rows and those words only. *)
Theorem short_supply_plan (supply : User.t -> Z -> list Z -> list Word.t)
    (now created : Py.datetime) (user : User.t) (t : Table) :
  unique_keys t ->
  let due := due_rows now (User.id user) t in
  let remaining := Z.max 0 (User.daily_word_count user - Z.of_nat (List.length due)) in
  let supplied := supply user remaining (learned_ids (User.id user) t) in
  0 < remaining -> Z.of_nat (List.length supplied) < remaining ->
  exists d t',
    get_daily_learning_words supply now created user true true t = Ok (d, t')
    /\ keys d = ["review_words"; "new_words"; "total_count"]%string
    /\ ~ signals_partial_assignment d
    /\ dict_get "new_words" d = Some (VWords supplied)
    /\ dict_get "total_count" d =
       Some (VInt (Z.of_nat (List.length due) + Z.of_nat (List.length supplied))).
Proof.
  intros U due remaining supplied R _.
  destruct (get_daily_learning_words_run supply now created user t U)
    as (t' & E & _).
  pose proof (order_by_next_review_perm (due_rows now (User.id user) t)) as P.
  fold due in P, E.
  assert (L : List.length (order_by_next_review due) = List.length due)
    by (apply Permutation_length, P).
  unfold remaining_slots in E. rewrite L in E. fold remaining in E.
  apply Z.ltb_lt in R. rewrite R in E. fold supplied in E.
  eexists _, t'. split; [exact E |].
  split; [reflexivity |]. split; [apply three_fields_no_flag |].
  split; reflexivity.
Qed.

Lemma short_supply_plan_witness :
  unique_keys scenario_f
  /\ exists d t',
       get_daily_learning_words one_word 100 100 learner true true scenario_f
       = Ok (d, t')
       /\ keys d = ["review_words"; "new_words"; "total_count"]%string
       /\ dict_get "total_count" d = Some (VInt 3).
Proof.
  split; [exact scenario_f_unique |].
  destruct (short_supply_plan one_word 100 100 learner scenario_f
              scenario_f_unique)
    as (d & t' & E & K & _ & _ & T); [reflexivity | reflexivity |].
  exists d, t'. split; [exact E |]. split; [exact K |]. rewrite T. reflexivity.
Defined.

(** C8, as stated, fails.  In scenario F the plan requests three words and
    obtains one; it succeeds with [total_count] 3, and its result has no
    field beside the three that could flag the partial assignment. *)
Lemma short_supply_not_flagged :
  remaining_slots learner (List.length (due_rows 100 1 scenario_f)) = 3
  /\ List.length (one_word learner 3 (learned_ids 1 scenario_f)) = 1%nat
  /\ exists d t',
       get_daily_learning_words one_word 100 100 learner true true scenario_f
       = Ok (d, t')
       /\ dict_get "total_count" d = Some (VInt 3)
       /\ ~ signals_partial_assignment d.
Proof.
  split; [reflexivity |]. split; [reflexivity |].
  destruct (get_daily_learning_words_run one_word 100 100 learner scenario_f
              scenario_f_unique) as (t' & E & _).
  eexists _, t'. split; [exact E |]. split; [reflexivity |].
  apply three_fields_no_flag.
Qed.

(** ** More on the model: counters, timestamps, intervals *)

Lemma reviews_snoc (evs : list Review) (ev : Review) (r : UserWordProgress) :
  reviews (evs ++ [ev]) r = review (reviews evs r) ev.
Proof. unfold reviews. rewrite fold_left_app. reflexivity. Qed.

Lemma review_counters (r : UserWordProgress) (ev : Review) :
  let r' := review r ev in
  total_reviews r' = total_reviews r + 1
  /\ correct_reviews r' =
     correct_reviews r + (if is_correct ev then 1 else 0)
  /\ consecutive_correct r' =
     (if is_correct ev then consecutive_correct r + 1 else 0)
  /\ consecutive_incorrect r' =
     (if is_correct ev then 0 else consecutive_incorrect r + 1).
Proof.
  destruct ev as [c rt d clk]. unfold review. cbn.
  destruct (srs_fields_inv _ _ (record_review_srs_fields c rt d clk r))
    as (_ & _ & _ & -> & -> & -> & ->).
  destruct c.
  - destruct (count_outcome_correct clk r) as (_ & _ & _ & -> & -> & -> & -> & _).
    repeat split.
  - destruct (count_outcome_incorrect clk r)
      as (_ & _ & _ & -> & -> & -> & -> & _).
    repeat split. lia.
Qed.

(** X1.  From a fresh record the counters count what their names say: after
    any run of reviews [total_reviews] is the number of reviews,
    [correct_reviews] the number of correct answers, and
    [consecutive_correct] and [consecutive_incorrect] are the lengths of the
    run of correct, respectively incorrect, answers that the run ends
    with. *)
Theorem counters_count_the_run (pk uid wid : Z) (now : Py.datetime)
    (evs : list Review) :
  let r := reviews evs (new_progress pk uid wid now) in
  total_reviews r = Z.of_nat (List.length evs)
  /\ correct_reviews r = correct_answers evs
  /\ consecutive_correct r = trailing_run true evs
  /\ consecutive_incorrect r = trailing_run false evs.
Proof.
  induction evs as [| ev evs IH] using rev_ind.
  - cbn. repeat split.
  - cbv zeta in *. rewrite reviews_snoc.
    destruct IH as (T & C & CC & CI).
    destruct (review_counters (reviews evs (new_progress pk uid wid now)) ev)
      as (-> & -> & -> & ->).
    rewrite T, C, CC, CI. unfold trailing_run, correct_answers.
    rewrite rev_app_distr, filter_app, !length_app, !Nat2Z.inj_add.
    cbn [rev app leading_run filter].
    destruct (is_correct ev); cbn [Bool.eqb List.length Z.of_nat];
      repeat split; lia.
Qed.

Lemma before_status_total (c : bool) (rt : option Q) (d : option Z)
    (clk : Clock) (r : UserWordProgress) :
  total_reviews (before_status c rt d clk r) = total_reviews r + 1.
Proof.
  unfold before_status.
  destruct (srs_fields_inv _ _
              (proj1 (update_metrics_frame rt d (count_outcome c clk r))))
    as (_ & _ & _ & -> & _).
  destruct c.
  - apply (count_outcome_correct clk r).
  - apply (count_outcome_incorrect clk r).
Qed.

Lemma before_status_mastered_at (c : bool) (rt : option Q) (d : option Z)
    (clk : Clock) (r : UserWordProgress) :
  mastered_at (before_status c rt d clk r) = mastered_at r.
Proof.
  unfold before_status.
  destruct (update_metrics_frame rt d (count_outcome c clk r))
    as (_ & _ & -> & _).
  destruct c.
  - apply (count_outcome_correct clk r).
  - apply (count_outcome_incorrect clk r).
Qed.

Lemma record_review_mastered_at (c : bool) (rt : option Q) (d : option Z)
    (clk : Clock) (r : UserWordProgress) :
  mastered_at (record_review c rt d clk r) =
  mastered_at (_update_status (at_mastered clk) (before_status c rt d clk r)).
Proof. rewrite record_review_stages. apply schedule_frame. Qed.

Lemma record_review_first_correct_at (c : bool) (rt : option Q) (d : option Z)
    (clk : Clock) (r : UserWordProgress) :
  first_correct_at (record_review c rt d clk r) =
  if c then match first_correct_at r with
            | Some t => Some t
            | None => Some (at_first_correct clk)
            end
  else first_correct_at r.
Proof.
  rewrite record_review_stages.
  assert (S : forall now x,
             first_correct_at (_schedule_next_review now x) = first_correct_at x).
  { intros. unfold _schedule_next_review. split_ifs; reflexivity. }
  assert (U : forall now x,
             first_correct_at (_update_status now x) = first_correct_at x).
  { intros. unfold _update_status. split_ifs; reflexivity. }
  assert (M : forall x, first_correct_at (update_metrics rt d x)
                        = first_correct_at x).
  { intros. unfold update_metrics, calculate_accuracy_rate.
    destruct rt, d, (total_reviews x =? 0); cbn;
      try destruct (average_response_time x); reflexivity. }
  unfold before_status. rewrite S, U, M.
  unfold count_outcome, _update_srs_success, _update_srs_failure.
  destruct c; cbn.
  - destruct (first_correct_at r) eqn:E; cbn; split_ifs; cbn; rewrite ?E;
      reflexivity.
  - split_ifs; reflexivity.
Qed.

(** X2.  The two milestones are written once: a [first_correct_at] or a
    [mastered_at] that is set keeps its value through any run of reviews,
    whatever the outcomes, demotion from [mastered] included. *)
Theorem milestones_are_kept (evs : list Review) (r : UserWordProgress) :
  (forall t, first_correct_at r = Some t ->
             first_correct_at (reviews evs r) = Some t)
  /\ (forall t, mastered_at r = Some t ->
                mastered_at (reviews evs r) = Some t).
Proof.
  revert r. induction evs as [| ev evs IH]; intro r; [split; auto |].
  change (reviews (ev :: evs) r) with (reviews evs (review r ev)).
  destruct (IH (review r ev)) as [IH1 IH2]. split; intros t E.
  - apply IH1. unfold review. rewrite record_review_first_correct_at, E.
    destruct (is_correct ev); reflexivity.
  - apply IH2. unfold review. rewrite record_review_mastered_at.
    set (b := before_status _ _ _ _ r).
    assert (Eb : mastered_at b = Some t).
    { unfold b. rewrite before_status_mastered_at. exact E. }
    pose proof (update_status_cases (at_mastered (clock ev)) b) as K.
    cbv zeta in K. rewrite Eb in K.
    destruct (mastery_guard b); [apply K |].
    destruct (demotion_guard b); [apply K |].
    destruct (failed_guard b); apply K.
Qed.

Lemma milestones_are_kept_witness :
  mastered_at (reviews [correct] scenario_e) = Some 1002
  /\ mastered_at (reviews [incorrect; incorrect] (reviews [correct] scenario_e))
     = Some 1002.
Proof.
  assert (M : mastered_at (reviews [correct] scenario_e) = Some 1002)
    by (vm_compute; reflexivity).
  split; [exact M |].
  exact (proj2 (milestones_are_kept [incorrect; incorrect]
                  (reviews [correct] scenario_e)) 1002 M).
Defined.

(** X3.  A record never goes back to [new] by a review: after a
    [record_review] call on a record with a non-negative review count the
    status is not [new], and a status among the five of the column stays
    among them. *)
Theorem review_leaves_new (c : bool) (rt : option Q) (d : option Z)
    (clk : Clock) (r : UserWordProgress) :
  0 <= total_reviews r ->
  status (record_review c rt d clk r) <> "new"%string
  /\ (known_status (status r) ->
      known_status (status (record_review c rt d clk r))).
Proof.
  intro T. rewrite record_review_status.
  set (b := before_status c rt d clk r).
  assert (Sb : status b = status r) by apply before_status_status.
  assert (Tb : (0 <? total_reviews b) = true).
  { apply Z.ltb_lt. unfold b. rewrite before_status_total. lia. }
  pose proof (update_status_cases (at_mastered clk) b) as K.
  cbv zeta in K. rewrite Sb, Tb, andb_true_r in K. unfold known_status.
  destruct (mastery_guard b); [destruct K as [-> _]; split; [discriminate | tauto] |].
  destruct (demotion_guard b); [destruct K as [-> _]; split; [discriminate | tauto] |].
  destruct (failed_guard b); [destruct K as [-> _]; split; [discriminate | tauto] |].
  destruct K as [-> _].
  destruct (String.eqb (status r) "new") eqn:E.
  - split; [discriminate | tauto].
  - apply String.eqb_neq in E. split; [exact E | tauto].
Qed.

Lemma review_leaves_new_witness :
  0 <= total_reviews fresh
  /\ status fresh = "new"%string
  /\ status (record_review false None None clk0 fresh) <> "new"%string.
Proof.
  assert (T : 0 <= total_reviews fresh) by (cbn; lia).
  split; [exact T |]. split; [reflexivity |].
  apply (review_leaves_new false None None clk0 fresh T).
Defined.

(** X4.  Whenever a record that started fresh is [mastered], its
    [mastered_at] is set. *)
Theorem mastered_has_timestamp (pk uid wid : Z) (now : Py.datetime)
    (evs : list Review) :
  let r := reviews evs (new_progress pk uid wid now) in
  status r = "mastered"%string -> mastered_at r <> None.
Proof.
  cbv zeta.
  induction evs as [| ev evs IH] using rev_ind; [cbn; discriminate |].
  rewrite reviews_snoc. set (r := reviews evs (new_progress pk uid wid now)) in *.
  unfold review. rewrite record_review_status, record_review_mastered_at.
  set (b := before_status _ _ _ _ r).
  assert (Sb : status b = status r) by apply before_status_status.
  assert (Mb : mastered_at b = mastered_at r) by apply before_status_mastered_at.
  pose proof (update_status_cases (at_mastered (clock ev)) b) as K.
  cbv zeta in K. rewrite Sb, Mb in K.
  destruct (mastery_guard b).
  { destruct K as [_ ->]. intros _. destruct (mastered_at r); discriminate. }
  destruct (demotion_guard b); [destruct K as [-> _]; discriminate |].
  destruct (failed_guard b); [destruct K as [-> _]; discriminate |].
  destruct K as [-> ->].
  destruct (String.eqb (status r) "new" && (0 <? total_reviews b));
    [discriminate | exact IH].
Qed.

Lemma mastered_has_timestamp_witness :
  status (reviews (repeat correct 5) fresh) = "mastered"%string
  /\ mastered_at (reviews (repeat correct 5) fresh) <> None.
Proof.
  assert (S : status (reviews (repeat correct 5) fresh) = "mastered"%string)
    by (vm_compute; reflexivity).
  split; [exact S |].
  apply (mastered_has_timestamp 1 1 1 0 (repeat correct 5)), S.
Defined.

Lemma review_correct_srs (r : UserWordProgress) (ev : Review) :
  is_correct ev = true ->
  srs_level (review r ev) =
    (if srs_level r =? 0 then 1 else if srs_level r =? 1 then 2
     else srs_level r + 1)
  /\ srs_interval (review r ev) =
    (if srs_level r =? 0 then 1 else if srs_level r =? 1 then 6
     else Py.int (inject_Z (srs_interval r) * ease_factor r)%Q).
Proof.
  destruct ev as [c rt d clk]. cbn. intros ->. unfold review. cbn.
  destruct (srs_fields_inv _ _ (record_review_srs_fields true rt d clk r))
    as (-> & -> & _).
  destruct (count_outcome_correct clk r) as (-> & -> & _). split; reflexivity.
Qed.

Lemma py_int_ge (n : Z) (e : Q) : 0 <= n -> (1 <= e)%Q ->
  n <= Py.int (inject_Z n * e).
Proof.
  intros Hn He.
  assert (Hn' : (0 <= inject_Z n)%Q).
  { change 0%Q with (inject_Z 0). rewrite <- Zle_Qle. exact Hn. }
  assert (H1 : (inject_Z n <= inject_Z n * e)%Q) by nra.
  rewrite py_int_floor by nra.
  rewrite <- (Qfloor_Z n) at 1. apply Qfloor_resp_le, H1.
Qed.

(** The level and the interval along a run of correct answers from a fresh
    record. *)
Lemma correct_run_shape (pk uid wid : Z) (now : Py.datetime)
    (evs : list Review) :
  Forall (fun ev => is_correct ev = true) evs ->
  let r := reviews evs (new_progress pk uid wid now) in
  (srs_level r = 0 /\ srs_interval r = 1)
  \/ (srs_level r = 1 /\ srs_interval r = 1)
  \/ (2 <= srs_level r /\ 1 <= srs_interval r).
Proof.
  induction evs as [| ev evs IH] using rev_ind; intro F.
  - left. split; reflexivity.
  - apply Forall_app in F as [F1 F2]. apply Forall_inv in F2.
    cbv zeta in *. rewrite reviews_snoc.
    destruct (srs_invariant_run evs _ (srs_invariant_new pk uid wid now))
      as (_ & _ & [He _] & _).
    set (r := reviews evs (new_progress pk uid wid now)) in *.
    destruct (review_correct_srs r ev F2) as [-> ->].
    destruct (IH F1) as [[L I] | [[L I] | [L I]]].
    + rewrite L. cbn. auto.
    + rewrite L. cbn. right. right. lia.
    + destruct (srs_level r =? 0) eqn:E0; [apply Z.eqb_eq in E0; lia |].
      destruct (srs_level r =? 1) eqn:E1; [apply Z.eqb_eq in E1; lia |].
      right. right. split; [lia |]. apply py_int_ge_1; [exact I | lra].
Qed.

(** X5.  Along a run of correct answers from a fresh record the interval
    never decreases from one review to the next. *)
Theorem correct_run_interval_monotone (pk uid wid : Z) (now : Py.datetime)
    (evs : list Review) (ev : Review) :
  Forall (fun e => is_correct e = true) evs -> is_correct ev = true ->
  srs_interval (reviews evs (new_progress pk uid wid now))
  <= srs_interval (reviews (evs ++ [ev]) (new_progress pk uid wid now)).
Proof.
  intros F C. rewrite reviews_snoc.
  destruct (srs_invariant_run evs _ (srs_invariant_new pk uid wid now))
    as (_ & _ & [He _] & _).
  pose proof (correct_run_shape pk uid wid now evs F) as S. cbv zeta in S.
  set (r := reviews evs (new_progress pk uid wid now)) in *.
  destruct (review_correct_srs r ev C) as [_ ->].
  destruct S as [[L I] | [[L I] | [L I]]].
  - rewrite L, I. cbn. lia.
  - rewrite L, I. cbn. lia.
  - destruct (srs_level r =? 0) eqn:E0; [apply Z.eqb_eq in E0; lia |].
    destruct (srs_level r =? 1) eqn:E1; [apply Z.eqb_eq in E1; lia |].
    apply py_int_ge; [lia | lra].
Qed.

Lemma correct_run_interval_monotone_witness :
  srs_interval (reviews [correct; correct] fresh)
  <= srs_interval (reviews ([correct; correct] ++ [correct]) fresh).
Proof.
  apply (correct_run_interval_monotone 1 1 1 0 [correct; correct] correct).
  - repeat constructor.
  - reflexivity.
Defined.




(** ** Due dates *)







(** ** More on the repositories *)

Lemma insert_by_next_review_sorted (r : UserWordProgress)
    (l : list UserWordProgress) :
  StronglySorted earlier_review l ->
  StronglySorted earlier_review (insert_by_next_review r l).
Proof.
  induction l as [| x l IH]; intro S; cbn.
  - constructor; constructor.
  - apply StronglySorted_inv in S as [S F].
    destruct (next_review_at r <? next_review_at x) eqn:E.
    + apply Z.ltb_lt in E. constructor; [constructor; assumption |].
      constructor; [unfold earlier_review; lia |].
      eapply Forall_impl; [| exact F]. unfold earlier_review. intros; lia.
    + apply Z.ltb_ge in E. constructor; [apply IH, S |].
      apply (Permutation_Forall
               (Permutation_sym (insert_by_next_review_perm r l))).
      constructor; [exact E | exact F].
Qed.

Lemma order_by_next_review_sorted (l : list UserWordProgress) :
  StronglySorted earlier_review (order_by_next_review l).
Proof.
  induction l as [| x l IH]; cbn; [constructor |].
  apply insert_by_next_review_sorted, IH.
Qed.

Lemma order_by_next_review_in (l : list UserWordProgress)
    (r : UserWordProgress) :
  In r (order_by_next_review l) <-> In r l.
Proof.
  split; apply Permutation_in;
    [| apply Permutation_sym]; apply order_by_next_review_perm.
Qed.

(** X9.  [get_words_due_for_review] never fails and leaves the table as it
    is; its result is in ascending order of [next_review_at] and holds
    exactly the rows of the user for which [is_due_for_review] is true at
    that time. *)
Theorem due_query_sorted_and_due (now : Py.datetime) (uid : Z) (t : Table) :
  exists l,
    get_words_due_for_review now uid t = Ok (l, t)
    /\ StronglySorted earlier_review l
    /\ (forall r, In r l <->
                  In r t /\ user_id r = uid /\ is_due_for_review now r = true).
Proof.
  eexists. split; [reflexivity |]. split; [apply order_by_next_review_sorted |].
  intro r. rewrite order_by_next_review_in, filter_In, andb_true_iff, Z.eqb_eq.
  unfold is_due_for_review. tauto.
Qed.

(** X10.  [get_user_progress_by_status] never fails and leaves the table as
    it is; its result is in ascending order of [next_review_at] and holds
    exactly the rows of the user with that status. *)
Theorem status_query_sorted_and_exact (uid : Z) (st : string) (t : Table) :
  exists l,
    get_user_progress_by_status uid st t = Ok (l, t)
    /\ StronglySorted earlier_review l
    /\ (forall r, In r l <-> In r t /\ user_id r = uid /\ status r = st).
Proof.
  eexists. split; [reflexivity |]. split; [apply order_by_next_review_sorted |].
  intro r. rewrite order_by_next_review_in, filter_In, andb_true_iff, Z.eqb_eq,
    String.eqb_eq. tauto.
Qed.

Lemma next_id_above (t : Table) (r : UserWordProgress) :
  In r t -> id r < next_id t.
Proof.
  unfold next_id. induction t as [| x t IH]; intros I; [destruct I |].
  cbn [fold_right]. destruct I as [-> | I]; [lia |]. specialize (IH I). lia.
Qed.

Lemma filter_id_absent (pk : Z) (t : Table) :
  ~ In pk (map id t) -> filter (fun r => id r =? pk) t = [].
Proof.
  induction t as [| x t IH]; intro H; [reflexivity |]. cbn in *.
  destruct (id x =? pk) eqn:E.
  - apply Z.eqb_eq in E. tauto.
  - apply IH. tauto.
Qed.

Lemma filter_id_unique (t : Table) (p : UserWordProgress) :
  unique_ids t -> In p t -> filter (fun r => id r =? id p) t = [p].
Proof.
  unfold unique_ids. induction t as [| x t IH]; intros U I; [destruct I |].
  cbn in U. apply NoDup_cons_iff in U as [N U]. cbn.
  destruct I as [-> | I].
  - rewrite Z.eqb_refl. f_equal. apply filter_id_absent. exact N.
  - destruct (id x =? id p) eqn:E.
    + apply Z.eqb_eq in E. exfalso. apply N. rewrite E. apply in_map, I.
    + apply IH; assumption.
Qed.

Lemma get_by_id_present (t : Table) (p : UserWordProgress) :
  unique_ids t -> In p t -> get_by_id (id p) t = Ok (Some p, t).
Proof.
  intros U I. unfold get_by_id. rewrite filter_id_unique by assumption.
  reflexivity.
Qed.

Lemma get_by_id_absent (pk : Z) (t : Table) :
  ~ In pk (map id t) -> get_by_id pk t = Ok (None, t).
Proof.
  intro N. unfold get_by_id. rewrite filter_id_absent by exact N. reflexivity.
Qed.

Lemma unique_ids_snoc (t : Table) (r : UserWordProgress) :
  unique_ids t -> ~ In (id r) (map id t) -> unique_ids (t ++ [r]).
Proof.
  unfold unique_ids. intros U N. rewrite map_app. cbn.
  apply NoDup_app; [exact U | repeat constructor; intros [] |].
  intros k I [<- | []]. contradiction.
Qed.

(** X11.  [create] and the lookups round-trip.  On a table with unique
    primary keys and unique (user, word) pairs, creating a record for a pair
    that has none succeeds with a primary key that no row has, and both
    [get_by_id] of that key and [get_by_user_and_word] of the pair then
    return the created record; the table keeps both uniqueness properties.
    Creating a record for a pair that has one is refused by the unique index
    with [IntegrityError]. *)
Theorem create_then_lookup (now : Py.datetime) (uid wid : Z) (t : Table) :
  unique_ids t -> unique_keys t ->
  (~ In (uid, wid) (map key t) ->
     exists p t',
       create now uid wid t = Ok (p, t')
       /\ ~ In (id p) (map id t)
       /\ unique_ids t' /\ unique_keys t'
       /\ get_by_id (id p) t' = Ok (Some p, t')
       /\ get_by_user_and_word uid wid t' = Ok (Some p, t'))
  /\ (In (uid, wid) (map key t) -> create now uid wid t = Raise IntegrityError).
Proof.
  intros Ui Uk. split.
  - intro N. eexists _, _. split; [apply create_absent, N |].
    set (p := new_progress (next_id t) uid wid now).
    assert (F : ~ In (id p) (map id t)).
    { intro I. apply in_map_iff in I as (r & E & I).
      apply next_id_above in I. change (id r = next_id t) in E. lia. }
    assert (Ui' : unique_ids (t ++ [p])) by (apply unique_ids_snoc; assumption).
    assert (Uk' : unique_keys (t ++ [p])) by (apply unique_keys_snoc; assumption).
    assert (I : In p (t ++ [p])) by (apply in_or_app; right; left; reflexivity).
    split; [exact F |]. split; [exact Ui' |]. split; [exact Uk' |]. split.
    + apply get_by_id_present; assumption.
    + apply (get_present (t ++ [p]) p Uk' I).
  - intro I. unfold create, unique_index_free.
    assert (E : existsb (same_key uid wid) t = true).
    { apply in_map_iff in I as (r & K & I). apply existsb_exists.
      exists r. split; [exact I | apply same_key_true, K]. }
    rewrite E. reflexivity.
Qed.

Lemma create_then_lookup_witness :
  unique_ids [fresh] /\ unique_keys [fresh]
  /\ create 7 1 1 [fresh] = Raise IntegrityError
  /\ exists p t', create 7 1 2 [fresh] = Ok (p, t')
                  /\ get_by_id (id p) t' = Ok (Some p, t').
Proof.
  assert (Ui : unique_ids [fresh]) by (repeat constructor; intros []).
  assert (Uk : unique_keys [fresh]) by (repeat constructor; intros []).
  destruct (create_then_lookup 7 1 1 [fresh] Ui Uk) as [_ R].
  destruct (create_then_lookup 7 1 2 [fresh] Ui Uk) as [C _].
  split; [exact Ui |]. split; [exact Uk |]. split.
  - apply R. left. reflexivity.
  - destruct C as (p & t' & E & _ & _ & _ & G & _).
    + cbn. intros [H | []]. discriminate.
    + exists p, t'. split; assumption.
Defined.

Lemma filter_length_existsb {A : Type} (f : A -> bool) (l : list A) :
  (0 <? Z.of_nat (List.length l)
        - Z.of_nat (List.length (filter (fun x => negb (f x)) l)))
  = existsb f l.
Proof.
  induction l as [| x l IH]; [reflexivity |].
  pose proof (filter_length_le (fun x => negb (f x)) l) as L.
  cbn [filter existsb List.length]. destruct (f x); cbn [negb orb List.length].
  - apply Z.ltb_lt. lia.
  - rewrite <- IH. f_equal. lia.
Qed.

(** X12.  [delete_by_id] answers whether a row had that primary key; after
    it no row has the key, [get_by_id] of the key returns [None], and the
    rows with another key are all there, in their order. *)
Theorem delete_by_id_removes (pk : Z) (t : Table) :
  exists t',
    delete_by_id pk t = Ok (existsb (fun r => id r =? pk) t, t')
    /\ t' = filter (fun r => negb (id r =? pk)) t
    /\ ~ In pk (map id t')
    /\ get_by_id pk t' = Ok (None, t')
    /\ (forall r, In r t' <-> In r t /\ id r <> pk).
Proof.
  eexists. split; [| split; [reflexivity |]].
  - unfold delete_by_id. rewrite filter_length_existsb. reflexivity.
  - assert (N : ~ In pk (map id (filter (fun r => negb (id r =? pk)) t))).
    { intro I. apply in_map_iff in I as (r & E & I).
      apply filter_In in I as [_ I]. apply negb_true_iff, Z.eqb_neq in I.
      contradiction. }
    split; [exact N |]. split; [apply get_by_id_absent, N |].
    intro r. rewrite filter_In, negb_true_iff, Z.eqb_neq. reflexivity.
Qed.

Lemma map_id_absent (pk : Z) (f : UserWordProgress -> UserWordProgress)
    (t : Table) :
  ~ In pk (map id t) -> map (fun r => if id r =? pk then f r else r) t = t.
Proof.
  induction t as [| x t IH]; intro N; [reflexivity |]. cbn in *.
  destruct (id x =? pk) eqn:E.
  - apply Z.eqb_eq in E. tauto.
  - f_equal. apply IH. tauto.
Qed.

(** X13.  [update_by_id] with a primary key that no row has changes nothing
    and returns [None], whatever values it is given. *)
Theorem update_by_id_missing (pk : Z) (kwargs : list assignment) (t : Table) :
  ~ In pk (map id t) -> update_by_id pk kwargs t = Ok (None, t).
Proof.
  intro N. unfold update_by_id.
  assert (F : forallb
                (fun r => negb (id r =? pk) || check_constraints (values kwargs r))
                t = true).
  { apply forallb_forall. intros r I.
    destruct (id r =? pk) eqn:E; [| reflexivity].
    apply Z.eqb_eq in E. exfalso. apply N. rewrite <- E. apply in_map, I. }
  rewrite F, map_id_absent by exact N. apply get_by_id_absent, N.
Qed.

Lemma update_by_id_missing_witness :
  ~ In 9 (map id [fresh])
  /\ update_by_id 9 [Set_srs_interval 0] [fresh] = Ok (None, [fresh]).
Proof.
  assert (N : ~ In 9 (map id [fresh])).
  { cbn. intros [H | []]. discriminate. }
  split; [exact N |]. apply update_by_id_missing, N.
Defined.

Lemma values_identity (kwargs : list assignment) (r : UserWordProgress) :
  identity (values kwargs r) = identity r.
Proof.
  unfold values. revert r. induction kwargs as [| a l IH]; intro r;
    [reflexivity |].
  cbn. rewrite IH. destruct a; reflexivity.
Qed.

Lemma values_id (kwargs : list assignment) (r : UserWordProgress) :
  id (values kwargs r) = id r.
Proof.
  pose proof (values_identity kwargs r) as H. unfold identity in H.
  injection H as H _ _. exact H.
Qed.

Lemma map_update_in (f : UserWordProgress -> UserWordProgress) (t : Table)
    (p : UserWordProgress) :
  In p t -> In (f p) (map (fun r => if id r =? id p then f r else r) t).
Proof.
  intro I. apply in_map_iff. exists p. rewrite Z.eqb_refl. auto.
Qed.

Lemma map_update_ids (f : UserWordProgress -> UserWordProgress) (pk : Z)
    (t : Table) :
  (forall r, id (f r) = id r) ->
  map id (map (fun r => if id r =? pk then f r else r) t) = map id t.
Proof.
  intro H. rewrite map_map. apply map_ext. intro r.
  destruct (id r =? pk); [apply H | reflexivity].
Qed.

(** [update_by_id] on the row with that primary key. *)
Lemma update_by_id_present (kwargs : list assignment) (t : Table)
    (p : UserWordProgress) :
  unique_ids t -> In p t -> check_constraints (values kwargs p) = true ->
  update_by_id (id p) kwargs t =
  Ok (Some (values kwargs p), updated (values kwargs p) t).
Proof.
  intros U I C. unfold update_by_id.
  assert (F : forallb
                (fun r => negb (id r =? id p)
                          || check_constraints (values kwargs r)) t = true).
  { apply forallb_forall. intros r Ir.
    destruct (id r =? id p) eqn:E; [| reflexivity].
    apply Z.eqb_eq in E. cbn.
    assert (X : filter (fun x => id x =? id p) t = [p])
      by (apply filter_id_unique; assumption).
    assert (Y : In r (filter (fun x => id x =? id p) t)).
    { apply filter_In. split; [exact Ir | apply Z.eqb_eq, E]. }
    rewrite X in Y. destruct Y as [<- | []]. exact C. }
  rewrite F. unfold updated. rewrite values_id.
  set (t' := map (fun r => if id r =? id p then values kwargs r else r) t).
  assert (U' : unique_ids t').
  { unfold unique_ids, t'. rewrite map_update_ids; [exact U |].
    intro r. apply values_id. }
  assert (I' : In (values kwargs p) t') by (apply map_update_in, I).
  pose proof (get_by_id_present t' (values kwargs p) U' I') as G.
  rewrite values_id in G.
  replace (map (fun x => if id x =? id p then values kwargs p else x) t)
    with t'; [exact G |].
  unfold t'. apply map_ext_in. intros r Ir.
  destruct (id r =? id p) eqn:E; [| reflexivity].
  apply Z.eqb_eq in E.
  assert (X : filter (fun x => id x =? id p) t = [p])
    by (apply filter_id_unique; assumption).
  assert (Y : In r (filter (fun x => id x =? id p) t)).
  { apply filter_In. split; [exact Ir | apply Z.eqb_eq, E]. }
  rewrite X in Y. destruct Y as [<- | []]. reflexivity.
Qed.

Lemma check_constraints_reset (now : Py.datetime) (p : UserWordProgress) :
  check_constraints p = true ->
  check_constraints (values (reset_values now) p) = true.
Proof.
  intro H. unfold check_constraints in H.
  apply andb_true_iff in H as [H D]. apply andb_true_iff in H as [_ A].
  unfold check_constraints. cbn. rewrite A, D. reflexivity.
Qed.

(** X14.  [reset_word_progress] on a table with unique keys.  For a pair
    without a record it returns [None] and changes nothing.  For a stored
    record it succeeds and returns the record with status [new], level 0,
    interval 1, ease factor 2.5, both streaks 0 and [next_review_at] the
    clock reading, so that the record is due at once; the review counters,
    the accuracy, the two milestones and the two flags are left as they
    were, and no other row changes. *)
Theorem reset_word_progress_resets (now : Py.datetime) (uid wid : Z)
    (t : Table) :
  unique_ids t -> unique_keys t ->
  (~ In (uid, wid) (map key t) ->
     reset_word_progress now uid wid t = Ok (None, t))
  /\ (forall p, In p t -> key p = (uid, wid) -> check_constraints p = true ->
      exists p',
        reset_word_progress now uid wid t = Ok (Some p', updated p' t)
        /\ srs_core p' = (0, 1, (25 # 10)%Q, 0, 0)
        /\ status p' = "new"%string
        /\ next_review_at p' = now
        /\ is_due_for_review now p' = true
        /\ identity p' = identity p
        /\ total_reviews p' = total_reviews p
        /\ correct_reviews p' = correct_reviews p
        /\ accuracy_rate p' = accuracy_rate p
        /\ first_correct_at p' = first_correct_at p
        /\ mastered_at p' = mastered_at p
        /\ is_favorite p' = is_favorite p
        /\ is_flagged p' = is_flagged p).
Proof.
  intros Ui Uk. split.
  - intro N. unfold reset_word_progress, bind. rewrite get_absent by exact N.
    reflexivity.
  - intros p I K C. exists (values (reset_values now) p).
    unfold key in K. injection K as <- <-.
    unfold reset_word_progress, bind. rewrite get_present by assumption.
    rewrite update_by_id_present;
      [| assumption | assumption | apply check_constraints_reset, C].
    split; [reflexivity |]. cbn. unfold is_due_for_review. cbn.
    rewrite Z.leb_refl. repeat split.
Qed.

Lemma reset_word_progress_resets_witness :
  unique_ids [scenario_e] /\ unique_keys [scenario_e]
  /\ exists p',
       reset_word_progress 500 1 1 [scenario_e] = Ok (Some p', [p'])
       /\ status p' = "new"%string /\ total_reviews p' = 20.
Proof.
  assert (Ui : unique_ids [scenario_e]) by (repeat constructor; intros []).
  assert (Uk : unique_keys [scenario_e]) by (repeat constructor; intros []).
  split; [exact Ui |]. split; [exact Uk |].
  destruct (reset_word_progress_resets 500 1 1 [scenario_e] Ui Uk) as [_ H].
  destruct (H scenario_e (or_introl eq_refl) eq_refl eq_refl)
    as (p' & E & _ & S & _ & _ & Id & T & _).
  exists p'. split; [| split; [exact S | rewrite T; reflexivity]].
  rewrite E. unfold updated. cbn [map].
  assert (X : id p' = id scenario_e).
  { unfold identity in Id. injection Id as X _ _. exact X. }
  rewrite X, Z.eqb_refl. reflexivity.
Defined.

(** ** More on the service *)

Lemma srs_core_step (r1 r2 : UserWordProgress) (ev : Review) :
  srs_core r1 = srs_core r2 ->
  srs_core (review r1 ev) = srs_core (review r2 ev).
Proof.
  unfold srs_core at 1 2. intro H. injection H as L I E CC CI.
  destruct ev as [c rt d clk]. unfold review. cbn.
  destruct (srs_fields_inv _ _ (record_review_srs_fields c rt d clk r1))
    as (L1 & I1 & E1 & _ & _ & C1 & D1).
  destruct (srs_fields_inv _ _ (record_review_srs_fields c rt d clk r2))
    as (L2 & I2 & E2 & _ & _ & C2 & D2).
  unfold srs_core. rewrite L1, I1, E1, C1, D1, L2, I2, E2, C2, D2.
  destruct c.
  - destruct (count_outcome_correct clk r1)
      as (-> & -> & -> & _ & _ & -> & -> & _).
    destruct (count_outcome_correct clk r2)
      as (-> & -> & -> & _ & _ & -> & -> & _).
    rewrite L, I, E, CC. reflexivity.
  - destruct (count_outcome_incorrect clk r1)
      as (-> & -> & -> & _ & _ & -> & -> & _).
    destruct (count_outcome_incorrect clk r2)
      as (-> & -> & -> & _ & _ & -> & -> & _).
    rewrite L, E, CI. reflexivity.
Qed.

(** X15.  After a reset the scheduler treats a record as a new one: through
    any run of reviews its level, interval, ease factor and streaks are
    those of a freshly created record given the same run, whatever its
    history was. *)
Theorem reset_record_schedules_like_new (now created : Py.datetime)
    (pk uid wid : Z) (p : UserWordProgress) (evs : list Review) :
  srs_core (reviews evs (values (reset_values now) p))
  = srs_core (reviews evs (new_progress pk uid wid created)).
Proof.
  assert (G : forall r1 r2, srs_core r1 = srs_core r2 ->
                            srs_core (reviews evs r1) = srs_core (reviews evs r2)).
  { induction evs as [| ev evs IH]; intros r1 r2 H; [exact H |].
    change (reviews (ev :: evs) r1) with (reviews evs (review r1 ev)).
    change (reviews (ev :: evs) r2) with (reviews evs (review r2 ev)).
    apply IH, srs_core_step, H. }
  apply G. reflexivity.
Qed.

(** X16.  [flag_difficult_word] and [mark_word_as_favorite] on a table with
    unique keys: for a pair without a record they return [None] and change
    nothing; for a stored record they succeed, the returned record differs
    from the stored one in that flag only, and no other row changes. *)
Theorem flags_change_one_field (uid wid : Z) (b : bool) (t : Table) :
  unique_ids t -> unique_keys t ->
  (~ In (uid, wid) (map key t) ->
     flag_difficult_word uid wid b t = Ok (None, t)
     /\ mark_word_as_favorite uid wid b t = Ok (None, t))
  /\ (forall p, In p t -> key p = (uid, wid) -> check_constraints p = true ->
      flag_difficult_word uid wid b t
      = Ok (Some (set_is_flagged b p), updated (set_is_flagged b p) t)
      /\ mark_word_as_favorite uid wid b t
         = Ok (Some (set_is_favorite b p), updated (set_is_favorite b p) t)
      /\ set_is_flagged (is_flagged p) (set_is_flagged b p) = p
      /\ set_is_favorite (is_favorite p) (set_is_favorite b p) = p).
Proof.
  intros Ui Uk. split.
  - intro N. unfold flag_difficult_word, mark_word_as_favorite, bind.
    rewrite get_absent by exact N. split; reflexivity.
  - intros p I K C. unfold key in K. injection K as <- <-.
    unfold flag_difficult_word, mark_word_as_favorite, bind.
    rewrite get_present by assumption.
    rewrite (update_by_id_present [Set_is_flagged b] t p Ui I C).
    rewrite (update_by_id_present [Set_is_favorite b] t p Ui I C).
    destruct p. repeat split.
Qed.

Lemma flags_change_one_field_witness :
  unique_ids [fresh] /\ unique_keys [fresh]
  /\ flag_difficult_word 1 1 true [fresh]
     = Ok (Some (set_is_flagged true fresh), [set_is_flagged true fresh])
  /\ mark_word_as_favorite 1 2 true [fresh] = Ok (None, [fresh]).
Proof.
  assert (Ui : unique_ids [fresh]) by (repeat constructor; intros []).
  assert (Uk : unique_keys [fresh]) by (repeat constructor; intros []).
  destruct (flags_change_one_field 1 1 true [fresh] Ui Uk) as [_ P].
  destruct (flags_change_one_field 1 2 true [fresh] Ui Uk) as [A _].
  split; [exact Ui |]. split; [exact Uk |]. split.
  - destruct (P fresh (or_introl eq_refl) eq_refl eq_refl) as (E & _).
    rewrite E. reflexivity.
  - apply A. cbn. intros [H | []]. discriminate.
Defined.

Section Assignment.

Variable supply : User.t -> Z -> list Z -> list Word.t.

(** [assign_words_to_user] on a table with unique keys: it appends rows, one
    per word without a record, and returns one stored record per word. *)
Lemma assign_words_to_user_run (now : Py.datetime) (user : User.t)
    (words : list Word.t) (t : Table) :
  unique_keys t ->
  exists ps t' extra,
    assign_words_to_user now user words t = Ok (ps, t')
    /\ t' = t ++ extra
    /\ unique_keys t'
    /\ map key ps = word_keys user words
    /\ Forall (fun p => In p t') ps
    /\ Forall (created_for (User.id user) now) extra.
Proof.
  revert t. induction words as [| w words IH]; intros t U.
  - exists [], t, []. rewrite app_nil_r. repeat split; auto.
  - destruct (create_or_get_progress_run now (User.id user) (Word.id w) t U)
      as [(p & I & K & E) | (N & E)].
    + destruct (IH t U) as (ps & t' & extra & E2 & -> & U2 & M & F & X).
      exists (p :: ps), (t ++ extra), extra. split.
      { cbn. unfold bind. rewrite E, E2. reflexivity. }
      split; [reflexivity |]. split; [exact U2 |]. split.
      { cbn. rewrite K, M. reflexivity. }
      split; [| exact X].
      constructor; [apply in_or_app; left; exact I | exact F].
    + set (p := new_progress (next_id t) (User.id user) (Word.id w) now) in *.
      assert (U1 : unique_keys (t ++ [p])) by (apply unique_keys_snoc; assumption).
      destruct (IH (t ++ [p]) U1) as (ps & t' & extra & E2 & -> & U2 & M & F & X).
      exists (p :: ps), ((t ++ [p]) ++ extra), (p :: extra). split.
      { cbn. unfold bind. rewrite E, E2. reflexivity. }
      split; [rewrite <- app_assoc; reflexivity |]. split; [exact U2 |]. split.
      { cbn. rewrite M. reflexivity. }
      split.
      * constructor; [| exact F].
        apply in_or_app. left. apply in_or_app. right. left. reflexivity.
      * constructor; [| exact X]. exists (next_id t), (Word.id w). reflexivity.
Qed.

(** Assigning words that all have their record in the table. *)
Lemma assign_words_to_user_stored (now : Py.datetime) (user : User.t)
    (words : list Word.t) (ps : list UserWordProgress) (t : Table) :
  unique_keys t -> Forall (fun p => In p t) ps ->
  map key ps = word_keys user words ->
  assign_words_to_user now user words t = Ok (ps, t).
Proof.
  intros U. revert ps. induction words as [| w words IH]; intros ps F M.
  - destruct ps; [reflexivity | discriminate].
  - destruct ps as [| p ps]; [discriminate |].
    unfold word_keys in M. cbn [map] in M. injection M as Ku Kw M.
    apply Forall_cons_iff in F as [I F].
    cbn [assign_words_to_user]. unfold bind, create_or_get_progress, bind.
    rewrite <- Ku, <- Kw.
    rewrite get_present by assumption. cbn [Py.truthy negb]. unfold ret.
    rewrite (IH ps F M). reflexivity.
Qed.

(** X17.  [assign_words_to_user] on a table with unique keys succeeds for
    any list of words, repeated words included.  It returns one record per
    word, in the order of the words, each for the user and that word and
    each stored in the table; it leaves the rows that were there untouched
    and only appends rows as [create] makes them; and assigning the same
    words again changes nothing and returns the same records. *)
Theorem assign_words_to_user_idempotent (now now' : Py.datetime)
    (user : User.t) (words : list Word.t) (t : Table) :
  unique_keys t ->
  exists ps t' extra,
    assign_words_to_user now user words t = Ok (ps, t')
    /\ map key ps = word_keys user words
    /\ Forall (fun p => In p t') ps
    /\ t' = t ++ extra
    /\ Forall (created_for (User.id user) now) extra
    /\ unique_keys t'
    /\ assign_words_to_user now' user words t' = Ok (ps, t').
Proof.
  intro U.
  destruct (assign_words_to_user_run now user words t U)
    as (ps & t' & extra & E & T & U' & M & F & X).
  exists ps, t', extra. repeat split; try assumption.
  apply assign_words_to_user_stored; assumption.
Qed.

Lemma assign_words_to_user_idempotent_witness :
  unique_keys scenario_f
  /\ exists ps t',
       assign_words_to_user 7 learner [Word.mk 3 "brisk"; Word.mk 10 "abide"]
         scenario_f = Ok (ps, t')
       /\ assign_words_to_user 8 learner [Word.mk 3 "brisk"; Word.mk 10 "abide"]
            t' = Ok (ps, t').
Proof.
  split; [exact scenario_f_unique |].
  destruct (assign_words_to_user_idempotent 7 8 learner
              [Word.mk 3 "brisk"; Word.mk 10 "abide"] scenario_f
              scenario_f_unique)
    as (ps & t' & _ & E & _ & _ & _ & _ & _ & E').
  exists ps, t'. split; assumption.
Defined.

(** The planner in terms of the assignment it makes. *)
Lemma get_daily_learning_words_state (now created : Py.datetime)
    (user : User.t) (t : Table) :
  let due := order_by_next_review (due_rows now (User.id user) t) in
  let remaining := remaining_slots user (List.length due) in
  let new_words :=
    if 0 <? remaining
    then supply user remaining (learned_ids (User.id user) t) else [] in
  get_daily_learning_words supply now created user true true t =
  match assign_words_to_user created user new_words t with
  | Ok (_, t') =>
      Ok ([("review_words", VProgress due); ("new_words", VWords new_words);
           ("total_count",
            VInt (Z.of_nat (List.length due)
                  + Z.of_nat (List.length new_words)))]%string, t')
  | Raise e => Raise e
  end.
Proof.
  intros due remaining new_words.
  unfold get_daily_learning_words, bind, get_words_due_for_review, ret.
  cbn -[Z.max Z.ltb Z.of_nat assign_words_to_user].
  fold (due_rows now (User.id user) t). fold due.
  fold (remaining_slots user (List.length due)). fold remaining.
  unfold new_words. destruct (0 <? remaining) eqn:R; [| reflexivity].
  unfold _get_user_learned_word_ids, bind, get_by_filter_user_id, ret.
  cbn -[Z.max Z.ltb Z.of_nat assign_words_to_user].
  fold (learned_ids (User.id user) t).
  destruct (supply user remaining (learned_ids (User.id user) t))
    as [| w ws] eqn:S; [reflexivity |].
  destruct (assign_words_to_user created user (w :: ws) t) as [[ps t'] | e];
    reflexivity.
Qed.

End Assignment.

(** X18.  What the daily plan leaves in the table, when the keys are unique:
    the rows that were there, untouched and in their order, followed by
    rows as [create] makes them for this user; a new row is [new], has no
    review and is due at once; every word that the supply returned has a
    record for the user afterwards; and the keys are still unique. *)
Theorem daily_plan_table (supply : User.t -> Z -> list Z -> list Word.t)
    (now created : Py.datetime) (user : User.t) (t : Table) :
  unique_keys t ->
  let due := due_rows now (User.id user) t in
  let remaining :=
    Z.max 0 (User.daily_word_count user - Z.of_nat (List.length due)) in
  let new_words :=
    if 0 <? remaining
    then supply user remaining (learned_ids (User.id user) t) else [] in
  exists d t' extra,
    get_daily_learning_words supply now created user true true t = Ok (d, t')
    /\ t' = t ++ extra
    /\ unique_keys t'
    /\ Forall (fun r => user_id r = User.id user /\ status r = "new"%string
                        /\ total_reviews r = 0
                        /\ is_due_for_review created r = true) extra
    /\ (forall w, In w new_words ->
                  In (User.id user, Word.id w) (map key t')).
Proof.
  intros U due remaining new_words.
  pose proof (get_daily_learning_words_state supply now created user t) as E.
  cbv zeta in E.
  pose proof (order_by_next_review_perm (due_rows now (User.id user) t)) as P.
  fold due in P, E.
  assert (L : List.length (order_by_next_review due) = List.length due)
    by (apply Permutation_length, P).
  unfold remaining_slots in E. rewrite L in E. fold remaining in E.
  fold new_words in E.
  destruct (assign_words_to_user_run created user new_words t U)
    as (ps & t' & extra & A & T & U' & M & F & X).
  rewrite A in E. eexists _, t', extra. split; [exact E |].
  split; [exact T |]. split; [exact U' |]. split.
  - eapply Forall_impl; [| exact X]. intros r (pk & wid & ->).
    unfold is_due_for_review. cbn. rewrite Z.leb_refl. auto.
  - intros w I. unfold word_keys in M.
    assert (K : In (User.id user, Word.id w) (map key ps)).
    { rewrite M. apply in_map_iff. exists w. auto. }
    apply in_map_iff in K as (p & K & Ip). apply in_map_iff. exists p.
    split; [exact K |]. rewrite Forall_forall in F. apply F, Ip.
Qed.

Lemma daily_plan_table_witness :
  unique_keys scenario_f
  /\ exists d t',
       get_daily_learning_words one_word 100 100 learner true true scenario_f
       = Ok (d, t')
       /\ In (1, 10) (map key t').
Proof.
  split; [exact scenario_f_unique |].
  destruct (daily_plan_table one_word 100 100 learner scenario_f
              scenario_f_unique) as (d & t' & extra & E & _ & _ & _ & W).
  exists d, t'. split; [exact E |].
  apply (W (Word.mk 10 "abide")). left. reflexivity.
Defined.

(** X19.  The two flags of the daily plan.  Without new words the plan is
    the due rows alone: the supply is not asked and the table is unchanged.
    Without reviews the list of reviews is empty and the due rows do not
    reduce the quota: the supply is asked for the whole quota when it is
    positive.  With neither, the result is empty. *)
Theorem daily_plan_flags (supply : User.t -> Z -> list Z -> list Word.t)
    (now created : Py.datetime) (user : User.t) (t : Table) :
  let due := order_by_next_review (due_rows now (User.id user) t) in
  let quota := User.daily_word_count user in
  let asked := if 0 <? quota
               then supply user quota (learned_ids (User.id user) t) else [] in
  get_daily_learning_words supply now created user true false t
  = Ok ([("review_words", VProgress due); ("new_words", VWords []);
         ("total_count", VInt (Z.of_nat (List.length due)))]%string, t)
  /\ get_daily_learning_words supply now created user false false t
     = Ok ([("review_words", VProgress []); ("new_words", VWords []);
            ("total_count", VInt 0)]%string, t)
  /\ (unique_keys t ->
      exists t',
        get_daily_learning_words supply now created user false true t
        = Ok ([("review_words", VProgress []); ("new_words", VWords asked);
               ("total_count", VInt (Z.of_nat (List.length asked)))]%string,
              t')).
Proof.
  intros due quota asked. split; [| split].
  - unfold get_daily_learning_words, bind, get_words_due_for_review, ret.
    cbn -[Z.of_nat]. fold (due_rows now (User.id user) t). fold due.
    rewrite Z.add_0_r. reflexivity.
  - reflexivity.
  - intro U. unfold get_daily_learning_words, bind, ret.
    cbn -[Z.max Z.ltb Z.of_nat assign_words_to_user].
    rewrite Z.sub_0_r. fold quota.
    assert (Q : (0 <? Z.max 0 quota) = (0 <? quota)).
    { destruct (0 <? quota) eqn:E.
      - apply Z.ltb_lt in E. apply Z.ltb_lt. lia.
      - apply Z.ltb_ge in E. apply Z.ltb_ge. lia. }
    rewrite Q. unfold asked. destruct (0 <? quota) eqn:E.
    + apply Z.ltb_lt in E. rewrite Z.max_r by lia.
      unfold _get_user_learned_word_ids, bind, get_by_filter_user_id, ret.
      cbn -[Z.max Z.ltb Z.of_nat assign_words_to_user].
      fold (learned_ids (User.id user) t).
      destruct (supply user quota (learned_ids (User.id user) t))
        as [| w ws] eqn:S.
      * exists t. reflexivity.
      * destruct (assign_words_to_user_run created user (w :: ws) t U)
          as (ps & t' & extra & A & _).
        exists t'. rewrite A. reflexivity.
    + exists t. reflexivity.
Qed.

Lemma daily_plan_flags_witness :
  unique_keys scenario_f
  /\ exists t',
       get_daily_learning_words one_word 100 100 learner false true scenario_f
       = Ok ([("review_words", VProgress []);
              ("new_words", VWords [Word.mk 10 "abide"]);
              ("total_count", VInt 1)]%string, t').
Proof.
  split; [exact scenario_f_unique |].
  destruct (daily_plan_flags one_word 100 100 learner scenario_f)
    as (_ & _ & H).
  destruct (H scenario_f_unique) as (t' & E).
  exists t'. rewrite E. reflexivity.
Defined.

(** ** The statistics *)

Lemma counts_get_set (s k : string) (n : Z) (d : list (string * Z)) :
  counts_get s (counts_set k n d) = if String.eqb s k then n else counts_get s d.
Proof.
  induction d as [| [k' n'] d IH]; cbn.
  - reflexivity.
  - destruct (String.eqb k k') eqn:E; cbn.
    + apply String.eqb_eq in E. subst k'. destruct (String.eqb s k); reflexivity.
    + destruct (String.eqb s k') eqn:E'.
      * apply String.eqb_eq in E'. subst k'.
        rewrite String.eqb_sym, E. reflexivity.
      * exact IH.
Qed.

Lemma tally_run (l : list UserWordProgress) (counts : list (string * Z))
    (n m : Z) :
  let '(counts', n', m') := fold_left tally l (counts, n, m) in
  (forall st, counts_get st counts' = counts_get st counts + status_count st l)
  /\ n' = n + fold_right (fun r a => total_reviews r + a) 0 l
  /\ m' = m + fold_right (fun r a => correct_reviews r + a) 0 l.
Proof.
  revert counts n m. induction l as [| r l IH]; intros counts n m.
  - cbn. split; [intro st; unfold status_count; cbn; lia | split; lia].
  - cbn [fold_left]. unfold tally at 2.
    specialize (IH (counts_set (status r) (counts_get (status r) counts + 1) counts)
                   (n + total_reviews r) (m + correct_reviews r)).
    destruct (fold_left tally l _) as [[counts' n'] m'].
    destruct IH as (C & N & M). cbn [fold_right].
    split; [| split; lia].
    intro st. rewrite C, counts_get_set. unfold status_count. cbn [filter].
    rewrite (String.eqb_sym st (status r)).
    destruct (String.eqb (status r) st) eqn:E; cbn [List.length].
    + apply String.eqb_eq in E. subst st. lia.
    + lia.
Qed.

(** The statistics, field by field. *)
Lemma get_user_learning_statistics_run (now : Py.datetime) (uid : Z)
    (t : Table) :
  exists s,
    get_user_learning_statistics now uid t = Ok (s, t)
    /\ Statistics.total_words s = Z.of_nat (List.length (rows_of uid t))
    /\ (forall st, counts_get st (Statistics.status_breakdown s)
                   = status_count st (rows_of uid t))
    /\ Statistics.total_reviews s = sum_total_reviews (rows_of uid t)
    /\ Statistics.total_correct s = sum_correct_reviews (rows_of uid t)
    /\ Statistics.overall_accuracy s =
       (if 0 <? sum_total_reviews (rows_of uid t)
        then (inject_Z (sum_correct_reviews (rows_of uid t))
              / inject_Z (sum_total_reviews (rows_of uid t)))%Q
        else 0%Q)
    /\ Statistics.words_due_for_review s
       = Z.of_nat (List.length (due_rows now uid t))
    /\ Statistics.new_words s = status_count "new" (rows_of uid t)
    /\ Statistics.learning_words s = status_count "learning" (rows_of uid t)
    /\ Statistics.mastered_words s = status_count "mastered" (rows_of uid t)
    /\ Statistics.failed_words s = status_count "failed" (rows_of uid t).
Proof.
  unfold get_user_learning_statistics, bind, get_by_filter_user_id,
    get_words_due_for_review, ret.
  fold (rows_of uid t). fold (due_rows now uid t).
  pose proof (tally_run (rows_of uid t) [] 0 0) as T.
  destruct (fold_left tally (rows_of uid t) ([], 0, 0)) as [[counts n] m].
  destruct T as (C & N & M). cbn in C.
  fold (sum_total_reviews (rows_of uid t)) in N.
  fold (sum_correct_reviews (rows_of uid t)) in M.
  rewrite Z.add_0_l in N, M. subst n m.
  eexists. split; [reflexivity |].
  cbn [Statistics.total_words Statistics.status_breakdown
       Statistics.total_reviews Statistics.total_correct
       Statistics.overall_accuracy Statistics.words_due_for_review
       Statistics.new_words Statistics.learning_words
       Statistics.mastered_words Statistics.failed_words].
  unfold due_rows.
  rewrite (Permutation_length (order_by_next_review_perm _)).
  repeat split; apply C.
Qed.

(** X20.  [get_user_learning_statistics] never fails and leaves the table
    as it is.  [total_words] is the number of rows of the user; for every
    status, [status_breakdown] holds the number of the user's rows with that
    status (0 when it has no entry), and [new_words], [learning_words],
    [mastered_words] and [failed_words] are those numbers for their
    statuses; [total_reviews] and [total_correct] are the sums of the rows'
    counters, and [words_due_for_review] is the number of due rows. *)
Theorem statistics_count_rows (now : Py.datetime) (uid : Z) (t : Table) :
  exists s,
    get_user_learning_statistics now uid t = Ok (s, t)
    /\ Statistics.total_words s = Z.of_nat (List.length (rows_of uid t))
    /\ (forall st, counts_get st (Statistics.status_breakdown s)
                   = status_count st (rows_of uid t))
    /\ Statistics.new_words s = status_count "new" (rows_of uid t)
    /\ Statistics.learning_words s = status_count "learning" (rows_of uid t)
    /\ Statistics.mastered_words s = status_count "mastered" (rows_of uid t)
    /\ Statistics.failed_words s = status_count "failed" (rows_of uid t)
    /\ Statistics.total_reviews s = sum_total_reviews (rows_of uid t)
    /\ Statistics.total_correct s = sum_correct_reviews (rows_of uid t)
    /\ Statistics.words_due_for_review s
       = Z.of_nat (List.length (due_rows now uid t)).
Proof.
  destruct (get_user_learning_statistics_run now uid t)
    as (s & E & H1 & H2 & H3 & H4 & _ & H6 & H7 & H8 & H9 & H10).
  exists s. repeat split; assumption.
Qed.

Lemma known_status_partition (l : list UserWordProgress) :
  Forall (fun r => known_status (status r)) l ->
  status_count "new" l + status_count "learning" l + status_count "review" l
  + status_count "mastered" l + status_count "failed" l
  = Z.of_nat (List.length l).
Proof.
  unfold status_count. induction l as [| r l IH]; intro F; [reflexivity |].
  apply Forall_cons_iff in F as [K F]. specialize (IH F). cbn [filter].
  destruct K as [-> | [-> | [-> | [-> | ->]]]];
    cbn [String.eqb Ascii.eqb Bool.eqb List.length]; lia.
Qed.

Lemma sums_ordered (l : list UserWordProgress) :
  Forall (fun r => 0 <= correct_reviews r <= total_reviews r) l ->
  0 <= sum_correct_reviews l <= sum_total_reviews l.
Proof.
  unfold sum_correct_reviews, sum_total_reviews.
  induction l as [| r l IH]; intro F; cbn; [lia |].
  apply Forall_cons_iff in F as [K F]. specialize (IH F). lia.
Qed.

(** X21.  Totals of the statistics.  When every row of the user has one of
    the five statuses, the four named counts and the [review] entry of the
    breakdown add up to [total_words]; the rows in [review] have no count of
    their own among the named ones.  When no row claims more correct
    answers than reviews, [overall_accuracy] lies between 0 and 1; it is 0
    when the user has no review. *)
Theorem statistics_totals (now : Py.datetime) (uid : Z) (t : Table) :
  exists s,
    get_user_learning_statistics now uid t = Ok (s, t)
    /\ (Forall (fun r => known_status (status r)) (rows_of uid t) ->
        Statistics.new_words s + Statistics.learning_words s
        + counts_get "review" (Statistics.status_breakdown s)
        + Statistics.mastered_words s + Statistics.failed_words s
        = Statistics.total_words s)
    /\ (Forall (fun r => 0 <= correct_reviews r <= total_reviews r)
          (rows_of uid t) ->
        (0 <= Statistics.overall_accuracy s <= 1)%Q)
    /\ (Statistics.total_reviews s <= 0 ->
        Statistics.overall_accuracy s = 0%Q).
Proof.
  destruct (get_user_learning_statistics_run now uid t)
    as (s & E & H1 & H2 & H3 & H4 & H5 & _ & H7 & H8 & H9 & H10).
  exists s. split; [exact E |]. split; [| split].
  - intro F. rewrite H1, H2, H7, H8, H9, H10. apply known_status_partition, F.
  - intro F. rewrite H5. apply sums_ordered in F.
    destruct (0 <? sum_total_reviews (rows_of uid t)) eqn:P.
    + apply Z.ltb_lt in P. apply accuracy_in_range; assumption.
    + split; discriminate.
  - intro Z0. rewrite H5. rewrite H3 in Z0.
    destruct (0 <? sum_total_reviews (rows_of uid t)) eqn:P; [| reflexivity].
    apply Z.ltb_lt in P. lia.
Qed.

Lemma statistics_totals_witness :
  Forall (fun r => known_status (status r)) (rows_of 1 [scenario_e; fresh])
  /\ exists s,
       get_user_learning_statistics 5 1 [scenario_e; fresh]
       = Ok (s, [scenario_e; fresh])
       /\ Statistics.new_words s + Statistics.learning_words s
          + counts_get "review" (Statistics.status_breakdown s)
          + Statistics.mastered_words s + Statistics.failed_words s
          = Statistics.total_words s.
Proof.
  assert (F : Forall (fun r => known_status (status r))
                (rows_of 1 [scenario_e; fresh])).
  { repeat constructor; unfold known_status; cbn; tauto. }
  split; [exact F |].
  destruct (statistics_totals 5 1 [scenario_e; fresh]) as (s & E & H & _).
  exists s. split; [exact E | exact (H F)].
Defined.

(** ** The daily task *)

(** X22.  [_should_send_daily_words]: a user who was never sent the daily
    words is sent them; one who was is sent them again exactly when more
    than twenty hours have passed since, so never twice within twenty
    hours. *)
Theorem daily_words_every_twenty_hours (now : Py.datetime) :
  _should_send_daily_words now None = true
  /\ (forall sent,
        _should_send_daily_words now (Some sent) = true
        <-> 20 * hour < now - sent).
Proof.
  split; [reflexivity |]. intro sent.
  unfold _should_send_daily_words. cbv zeta. rewrite Qltb_true.
  assert (P : (0 < inject_Z 1000000)%Q) by reflexivity.
  assert (M : (inject_Z (20 * 3600) * inject_Z 1000000 == inject_Z (20 * hour))%Q).
  { rewrite <- inject_Z_mult. reflexivity. }
  split; intro H.
  - rewrite Zlt_Qlt, <- M.
    destruct (Qlt_le_dec (inject_Z (20 * 3600) * inject_Z 1000000)
                (inject_Z (now - sent))) as [K | K]; [exact K |].
    exfalso. apply (Qle_shift_div_r _ _ _ P) in K.
    apply (Qlt_not_le _ _ H K).
  - apply Qlt_shift_div_l; [exact P |]. rewrite M, <- Zlt_Qlt. exact H.
Qed.

(** ** The word cache *)

Lemma insert_by_usage_perm (w : WordCache.row) (l : list WordCache.row) :
  Permutation (WordCache.insert_by_usage w l) (w :: l).
Proof.
  induction l as [| x l IH]; cbn; [reflexivity |].
  destruct (WordCache.usage_count w <? WordCache.usage_count x); [reflexivity |].
  rewrite IH. apply perm_swap.
Qed.

Lemma order_by_usage_perm (l : list WordCache.row) :
  Permutation (WordCache.order_by_usage l) l.
Proof.
  induction l as [| x l IH]; cbn; [reflexivity |].
  rewrite insert_by_usage_perm. apply perm_skip, IH.
Qed.

Lemma insert_by_usage_sorted (w : WordCache.row) (l : list WordCache.row) :
  StronglySorted less_used l ->
  StronglySorted less_used (WordCache.insert_by_usage w l).
Proof.
  induction l as [| x l IH]; intro S; cbn.
  - constructor; constructor.
  - apply StronglySorted_inv in S as [S F].
    destruct (WordCache.usage_count w <? WordCache.usage_count x) eqn:E.
    + apply Z.ltb_lt in E. constructor; [constructor; assumption |].
      constructor; [unfold less_used; lia |].
      eapply Forall_impl; [| exact F]. unfold less_used. intros; lia.
    + apply Z.ltb_ge in E. constructor; [apply IH, S |].
      apply (Permutation_Forall (Permutation_sym (insert_by_usage_perm w l))).
      constructor; [exact E | exact F].
Qed.

Lemma order_by_usage_sorted (l : list WordCache.row) :
  StronglySorted less_used (WordCache.order_by_usage l).
Proof.
  induction l as [| x l IH]; cbn; [constructor |].
  apply insert_by_usage_sorted, IH.
Qed.

Lemma eligible_in (difficulty : string) (exclude : list Z)
    (t : WordCache.table) (w : WordCache.row) :
  In w (WordCache.eligible difficulty exclude t) <->
  In w t /\ WordCache.difficulty_level w = difficulty
  /\ WordCache.is_verified w = true /\ ~ In (WordCache.id w) exclude.
Proof.
  unfold WordCache.eligible.
  assert (S : forall x,
             In x (filter (fun w => String.eqb (WordCache.difficulty_level w)
                                      difficulty
                                    && Bool.eqb (WordCache.is_verified w) true) t)
             <-> In x t /\ WordCache.difficulty_level x = difficulty
                 /\ WordCache.is_verified x = true).
  { intro x. rewrite filter_In, andb_true_iff, String.eqb_eq, Bool.eqb_true_iff.
    reflexivity. }
  destruct exclude as [| e es].
  - rewrite S. cbn. tauto.
  - rewrite filter_In, S, negb_true_iff.
    assert (X : existsb (Z.eqb (WordCache.id w)) (e :: es) = false
                <-> ~ In (WordCache.id w) (e :: es)).
    { split.
      - intros H I. assert (K : existsb (Z.eqb (WordCache.id w)) (e :: es) = true).
        { apply existsb_exists. exists (WordCache.id w).
          split; [exact I | apply Z.eqb_refl]. }
        congruence.
      - intro N. destruct (existsb (Z.eqb (WordCache.id w)) (e :: es)) eqn:K;
          [| reflexivity].
        apply existsb_exists in K as (x & I & E). apply Z.eqb_eq in E.
        subst x. contradiction. }
    rewrite X. tauto.
Qed.

Lemma filter_keeps_word_ids (keep : WordCache.row -> bool)
    (t : WordCache.table) :
  unique_word_ids t -> unique_word_ids (filter keep t).
Proof.
  unfold unique_word_ids. induction t as [| w t IH]; intro U; [constructor |].
  cbn in *. apply NoDup_cons_iff in U as [Fresh U].
  destruct (keep w); [| apply IH, U].
  cbn. constructor; [| apply IH, U].
  intro I. apply Fresh. apply in_map_iff in I as (y & E & I).
  apply filter_In in I as [I _]. rewrite <- E. apply in_map, I.
Qed.

Lemma eligible_unique (difficulty : string) (exclude : list Z)
    (t : WordCache.table) :
  unique_word_ids t ->
  NoDup (map WordCache.id
           (WordCache.order_by_usage (WordCache.eligible difficulty exclude t))).
Proof.
  intro U.
  apply (Permutation_NoDup
           (Permutation_map WordCache.id
              (Permutation_sym (order_by_usage_perm _)))).
  unfold WordCache.eligible.
  destruct exclude; repeat apply filter_keeps_word_ids; exact U.
Qed.

Lemma word_filter_id_absent (pk : Z) (t : WordCache.table) :
  ~ In pk (map WordCache.id t) ->
  filter (fun w => WordCache.id w =? pk) t = [].
Proof.
  induction t as [| x t IH]; intro H; [reflexivity |]. cbn in *.
  destruct (WordCache.id x =? pk) eqn:E.
  - apply Z.eqb_eq in E. tauto.
  - apply IH. tauto.
Qed.

Lemma word_filter_id_unique (pk : Z) (t : WordCache.table) :
  unique_word_ids t -> In pk (map WordCache.id t) ->
  exists w, filter (fun w => WordCache.id w =? pk) t = [w].
Proof.
  unfold unique_word_ids. induction t as [| x t IH]; intros U I; [destruct I |].
  cbn in U. apply NoDup_cons_iff in U as [N U]. cbn.
  destruct (WordCache.id x =? pk) eqn:E.
  - apply Z.eqb_eq in E. subst pk. exists x. f_equal.
    apply word_filter_id_absent, N.
  - apply Z.eqb_neq in E. destruct I as [I | I]; [contradiction |].
    apply IH; assumption.
Qed.

Lemma increment_word_usage_run (pk : Z) (t : WordCache.table) :
  unique_word_ids t ->
  WordCache.increment_word_usage pk t = WordCache.Ok tt (used [pk] t).
Proof.
  intro U. unfold WordCache.increment_word_usage, WordCache.bind,
    WordCache.get_by_id, used.
  assert (M : forall w, existsb (Z.eqb (WordCache.id w)) [pk]
                        = (WordCache.id w =? pk)).
  { intro w. cbn. apply orb_false_r. }
  destruct (in_dec Z.eq_dec pk (map WordCache.id t)) as [I | N].
  - destruct (word_filter_id_unique pk t U I) as (w & ->).
    f_equal. apply map_ext. intro x. rewrite M. reflexivity.
  - rewrite word_filter_id_absent by exact N. unfold WordCache.ret. f_equal.
    symmetry. transitivity (map (fun x : WordCache.row => x) t);
      [| apply map_id].
    apply map_ext_in. intros x Ix.
    rewrite M. destruct (WordCache.id x =? pk) eqn:E; [| reflexivity].
    apply Z.eqb_eq in E. exfalso. apply N. rewrite <- E. apply in_map, Ix.
Qed.

Lemma used_ids (words : list Z) (t : WordCache.table) :
  map WordCache.id (used words t) = map WordCache.id t.
Proof.
  unfold used. rewrite map_map. apply map_ext. intro w.
  destruct (existsb (Z.eqb (WordCache.id w)) words); reflexivity.
Qed.

(** Marking the words of a list without repeats, on a table with unique
    primary keys. *)
Lemma mark_used_run (words : list Z) (t : WordCache.table) :
  unique_word_ids t -> NoDup words ->
  WordCache.mark_used words t = WordCache.Ok tt (used words t).
Proof.
  revert t. induction words as [| pk rest IH]; intros t U N.
  - unfold used. cbn. unfold WordCache.ret. f_equal. symmetry. apply map_id.
  - apply NoDup_cons_iff in N as [H N]. cbn [WordCache.mark_used].
    unfold WordCache.bind. rewrite increment_word_usage_run by exact U.
    rewrite IH; [| unfold unique_word_ids; rewrite used_ids; exact U | exact N].
    f_equal. unfold used. rewrite map_map. apply map_ext. intro w.
    cbn [existsb]. rewrite orb_false_r.
    destruct (WordCache.id w =? pk) eqn:E; cbn [orb].
    + assert (X : existsb (Z.eqb (WordCache.id (WordCache.increment_usage w)))
                    rest = false).
      { cbn. destruct (existsb (Z.eqb (WordCache.id w)) rest) eqn:K;
          [| reflexivity].
        apply existsb_exists in K as (x & I & Ex). apply Z.eqb_eq in Ex, E.
        subst. contradiction. }
      rewrite X. reflexivity.
    + reflexivity.
Qed.

Lemma word_of_id (rows : list WordCache.row) (x y : WordCache.row) :
  unique_word_ids rows -> In x rows -> In y rows ->
  WordCache.id x = WordCache.id y -> x = y.
Proof.
  unfold unique_word_ids.
  induction rows as [| a rows IH]; intros U Ix Iy E; [destruct Ix |].
  cbn in U. apply NoDup_cons_iff in U as [Fresh U].
  destruct Ix as [-> | Ix], Iy as [-> | Iy].
  - reflexivity.
  - exfalso. apply Fresh. rewrite E. apply in_map, Iy.
  - exfalso. apply Fresh. rewrite <- E. apply in_map, Ix.
  - apply IH; assumption.
Qed.

Lemma StronglySorted_app_le {A : Type} (R : A -> A -> Prop) (a b : list A) :
  StronglySorted R (a ++ b) -> forall x y, In x a -> In y b -> R x y.
Proof.
  induction a as [| h a IH]; intros S x y Ix Iy; [destruct Ix |].
  cbn in S. apply StronglySorted_inv in S as [S F].
  destruct Ix as [-> | Ix].
  - rewrite Forall_forall in F. apply F. apply in_or_app. right. exact Iy.
  - apply IH; assumption.
Qed.

Lemma cached_query_run (difficulty : string) (n : Z) (exclude : list Z)
    (t : WordCache.table) :
  0 <= n ->
  WordCache.get_verified_words_by_difficulty difficulty n exclude t =
  WordCache.Ok
    (map WordCache.id
       (firstn (Z.to_nat n)
          (WordCache.order_by_usage (WordCache.eligible difficulty exclude t))))
    t.
Proof.
  intro H. unfold WordCache.get_verified_words_by_difficulty.
  destruct (n <? 0) eqn:E; [apply Z.ltb_lt in E; lia | reflexivity].
Qed.

(** X23.  [get_or_generate_words] when the cache can serve the request.  On
    a table of words with unique primary keys, if at least [word_count]
    words are verified, of the user's difficulty level and not excluded,
    then, whatever the generator would do, it is not used: the call returns
    exactly [word_count] distinct words, each of them verified, of that
    level and not excluded, none of them used more often than an eligible
    word that was left out, and the usage count of the returned words, and
    of no other, has gone up by one. *)
Theorem cached_words_serve_request
    (generate : User.t -> Z -> WordCache.DB (list Z)) (user : User.t)
    (word_count : Z) (exclude_word_ids : option (list Z))
    (t : WordCache.table) :
  let pool :=
    WordCache.eligible (User.difficulty_level user)
      (excluded exclude_word_ids) t in
  unique_word_ids t -> 0 <= word_count ->
  word_count <= Z.of_nat (List.length pool) ->
  exists words,
    WordCache.get_or_generate_words generate user word_count exclude_word_ids t
    = WordCache.Ok words (used words t)
    /\ Z.of_nat (List.length words) = word_count
    /\ NoDup words
    /\ (forall pk, In pk words ->
        exists w, In w t /\ WordCache.id w = pk
                  /\ WordCache.difficulty_level w = User.difficulty_level user
                  /\ WordCache.is_verified w = true
                  /\ ~ In pk (excluded exclude_word_ids))
    /\ (forall w w', In w pool -> In w' pool ->
                     In (WordCache.id w) words ->
                     ~ In (WordCache.id w') words ->
                     WordCache.usage_count w <= WordCache.usage_count w').
Proof.
  intros pool U H0 Hn.
  set (sorted := WordCache.order_by_usage pool).
  set (chosen := firstn (Z.to_nat word_count) sorted).
  assert (P : Permutation sorted pool) by apply order_by_usage_perm.
  assert (Ls : List.length sorted = List.length pool)
    by (apply Permutation_length, P).
  assert (Lc : List.length chosen = Z.to_nat word_count).
  { unfold chosen. apply firstn_length_le. lia. }
  assert (Us : NoDup (map WordCache.id sorted)) by (apply eligible_unique, U).
  assert (Split : sorted = chosen ++ skipn (Z.to_nat word_count) sorted).
  { unfold chosen. symmetry. apply firstn_skipn. }
  assert (Uc : NoDup (map WordCache.id chosen)).
  { rewrite Split, map_app in Us. apply NoDup_app_remove_r in Us. exact Us. }
  assert (Sub : forall x, In x chosen -> In x sorted).
  { intros x I. rewrite Split. apply in_or_app. left. exact I. }
  exists (map WordCache.id chosen).
  assert (Lm : Z.of_nat (List.length (map WordCache.id chosen)) = word_count).
  { rewrite length_map, Lc. lia. }
  split; [| split; [exact Lm | split; [exact Uc | split]]].
  - unfold WordCache.get_or_generate_words, WordCache.bind.
    fold (excluded exclude_word_ids).
    rewrite cached_query_run by exact H0. fold pool. fold sorted. fold chosen.
    rewrite Lm, Z.leb_refl.
    assert (Pre : WordCache.prefix word_count (map WordCache.id chosen)
                  = map WordCache.id chosen).
    { unfold WordCache.prefix. apply Z.leb_le in H0. rewrite H0.
      apply firstn_all2. rewrite length_map, Lc. lia. }
    rewrite Pre, mark_used_run by assumption. reflexivity.
  - intros pk I. apply in_map_iff in I as (w & E & I).
    assert (Iw : In w pool).
    { apply (Permutation_in w P). apply Sub, I. }
    apply eligible_in in Iw as (It & D & V & X). exists w.
    rewrite <- E. auto.
  - intros w w' Iw Iw' C NC.
    apply (Permutation_in w (Permutation_sym P)) in Iw.
    apply (Permutation_in w' (Permutation_sym P)) in Iw'.
    apply in_map_iff in C as (x & E & Ix).
    assert (Ixs : In x sorted) by (apply Sub, Ix).
    assert (X : x = w) by (apply (word_of_id sorted x w Us Ixs Iw E)).
    subst x.
    assert (Iy : In w' (skipn (Z.to_nat word_count) sorted)).
    { rewrite Split in Iw'. apply in_app_or in Iw' as [K | K]; [| exact K].
      exfalso. apply NC. apply in_map, K. }
    pose proof (order_by_usage_sorted pool) as S. fold sorted in S.
    rewrite Split in S.
    apply (StronglySorted_app_le less_used _ _ S w w' Ix Iy).
Qed.

Lemma lexicon_unique : unique_word_ids lexicon.
Proof.
  change (NoDup [1; 2; 3; 4; 5]).
  repeat (apply NoDup_cons; [cbn; intuition congruence |]). apply NoDup_nil.
Qed.

Lemma cached_words_serve_request_witness :
  unique_word_ids lexicon
  /\ WordCache.get_or_generate_words no_generator learner 2 (Some [2]) lexicon
     = WordCache.Ok [4; 1] (used [4; 1] lexicon).
Proof.
  split; [exact lexicon_unique |].
  destruct (cached_words_serve_request no_generator learner 2 (Some [2])
              lexicon lexicon_unique)
    as (words & E & _); [lia | cbn; lia |].
  assert (W : words = [4; 1]).
  { assert (K : WordCache.get_or_generate_words no_generator learner 2
                  (Some [2]) lexicon
                = WordCache.Ok [4; 1] (used [4; 1] lexicon))
      by (vm_compute; reflexivity).
    rewrite K in E. injection E as <- _. reflexivity. }
  rewrite <- W. exact E.
Defined.

(** X24.  [get_or_generate_words] when the cache is short of the request
    (fewer eligible words than a non-negative [word_count]).  The call never
    raises, whatever the generator does, and returns at most [word_count]
    words.  If the generator raises, the result is the eligible cached
    words, all of them and fewer than requested, and no usage count is
    raised.  If the generator returns words and no word occurs twice in the
    cached and generated words together, the result is the first
    [word_count] of the cached words followed by the generated ones, taken
    as they come, excluded ones included, and every cached and generated
    word is marked as used. *)
Theorem short_cache_falls_back
    (generate : User.t -> Z -> WordCache.DB (list Z)) (user : User.t)
    (word_count : Z) (exclude_word_ids : option (list Z))
    (t : WordCache.table) :
  let pool :=
    WordCache.eligible (User.difficulty_level user)
      (excluded exclude_word_ids) t in
  let cached := map WordCache.id (WordCache.order_by_usage pool) in
  let needed := word_count - Z.of_nat (List.length pool) in
  0 <= word_count -> Z.of_nat (List.length pool) < word_count ->
  (exists words t',
      WordCache.get_or_generate_words generate user word_count
        exclude_word_ids t = WordCache.Ok words t'
      /\ Z.of_nat (List.length words) <= word_count)
  /\ (forall e t',
      generate user needed t = WordCache.Raise e t' ->
      WordCache.get_or_generate_words generate user word_count
        exclude_word_ids t = WordCache.Ok cached t')
  /\ (forall new_words t',
      generate user needed t = WordCache.Ok new_words t' ->
      unique_word_ids t' -> NoDup (cached ++ new_words) ->
      WordCache.get_or_generate_words generate user word_count
        exclude_word_ids t
      = WordCache.Ok (WordCache.prefix word_count (cached ++ new_words))
          (used (cached ++ new_words) t')).
Proof.
  intros pool cached needed H0 Hn.
  assert (Lp : List.length (WordCache.order_by_usage pool) = List.length pool)
    by (apply Permutation_length, order_by_usage_perm).
  assert (Lc : List.length cached = List.length pool).
  { unfold cached. rewrite length_map. exact Lp. }
  assert (Q : WordCache.get_verified_words_by_difficulty
                (User.difficulty_level user) word_count
                (excluded exclude_word_ids) t = WordCache.Ok cached t).
  { rewrite cached_query_run by exact H0. fold pool. unfold cached.
    rewrite firstn_all2 by lia. reflexivity. }
  assert (B : (word_count <=? Z.of_nat (List.length cached)) = false).
  { apply Z.leb_gt. lia. }
  assert (G : WordCache.get_or_generate_words generate user word_count
                exclude_word_ids t
              = WordCache.try_except
                  (WordCache.bind (generate user needed)
                     (fun new_words =>
                        WordCache.bind (WordCache.mark_used (cached ++ new_words))
                          (fun _ => WordCache.ret
                             (WordCache.prefix word_count (cached ++ new_words)))))
                  (WordCache.ret cached) t).
  { unfold WordCache.get_or_generate_words. fold (excluded exclude_word_ids).
    unfold WordCache.bind at 1. rewrite Q, B, Lc. reflexivity. }
  assert (Pl : forall l : list Z,
             Z.of_nat (List.length (WordCache.prefix word_count l)) <= word_count).
  { intro l. unfold WordCache.prefix. apply Z.leb_le in H0. rewrite H0.
    pose proof (firstn_le_length (Z.to_nat word_count) l) as K.
    rewrite length_firstn. lia. }
  split; [| split].
  - rewrite G. unfold WordCache.try_except, WordCache.bind, WordCache.ret.
    destruct (generate user needed t) as [g tg | e tg].
    + destruct (WordCache.mark_used (cached ++ g) tg) as [[] tm | e tm].
      * eexists _, _. split; [reflexivity | apply Pl].
      * eexists _, _. split; [reflexivity | lia].
    + eexists _, _. split; [reflexivity | lia].
  - intros e t' E. rewrite G.
    unfold WordCache.try_except, WordCache.bind. rewrite E. reflexivity.
  - intros g t' E U N. rewrite G.
    unfold WordCache.try_except, WordCache.bind. rewrite E.
    rewrite mark_used_run by assumption. reflexivity.
Qed.

Lemma short_cache_falls_back_witness :
  WordCache.get_or_generate_words no_generator learner 4 (Some [2]) lexicon
  = WordCache.Ok [4; 1] lexicon.
Proof.
  destruct (short_cache_falls_back no_generator learner 4 (Some [2]) lexicon)
    as (_ & H & _); [lia | cbn; lia |].
  exact (H WordCache.GenerationError lexicon eq_refl).
Defined.

(** ** Reviews through the service, stored and read back *)






